(** * Amplifier provider adapters (DeepSeek, Qwen, Doubao)

    A shallow embedding of the three provider modules
    [amplifier_module_provider_deepseek], [amplifier_module_provider_qwen]
    and [amplifier_module_provider_doubao], and the properties of their
    [_get_api_key], [__init__] and [complete] methods.

    Python objects are dynamically typed, so the values the code moves
    around (configuration entries, JSON documents, request fields) are one
    inductive type [value]; exceptions are an explicit result type; the
    two effects of the code, reading [os.environ] and posting one HTTP
    request, are threaded through a small monad that also records every
    request sent.  The world a call runs in also holds the limits of the
    interpreter that [json.loads] runs into. *)

Set Warnings "-register-all".
From Stdlib Require Import String Ascii List ZArith Bool Lia DecimalString.
From Stdlib Require Import Floats.SpecFloat.
Import ListNotations.
Local Open Scope string_scope.
Local Open Scope Z_scope.

(** ** Python values *)

Module Py.

(** A [float] is an IEEE binary64 datum.  The code never computes with
    floats; only their truth value is ever inspected. *)
Inductive value : Type :=
| VNone
| VBool (b : bool)
| VInt (n : Z)
| VFloat (f : spec_float)
| VStr (s : string)
| VList (l : list value)
| VDict (d : list (string * value)).

(** A [dict] with [str] keys, in insertion order, without duplicate keys. *)
Definition dict := list (string * value).

Fixpoint lookup (k : string) (d : dict) : option value :=
  match d with
  | [] => None
  | (k', v) :: d' => if String.eqb k k' then Some v else lookup k d'
  end.

(** [d.get(k, dflt)] on a dict. *)
Definition dict_get (d : dict) (k : string) (dflt : value) : value :=
  match lookup k d with
  | Some v => v
  | None => dflt
  end.

(** [d[k] = v]: an existing key keeps its position, a new key goes last. *)
Fixpoint dict_set (d : dict) (k : string) (v : value) : dict :=
  match d with
  | [] => [(k, v)]
  | (k', v') :: d' =>
      if String.eqb k k' then (k', v) :: d' else (k', v') :: dict_set d' k v
  end.

(** [bool(v)], the test behind [if v:], [not v] and [v or w]. *)
Definition truthy (v : value) : bool :=
  match v with
  | VNone => false
  | VBool b => b
  | VInt n => negb (n =? 0)
  | VFloat (S754_zero _) => false
  | VFloat _ => true
  | VStr EmptyString => false
  | VStr _ => true
  | VList [] => false
  | VList _ => true
  | VDict [] => false
  | VDict _ => true
  end.

(** [v or w] *)
Definition or_ (v w : value) : value := if truthy v then v else w.

(** Formatted string literals are kept as their pieces: [f"Bearer {k}"]
    is [[Lit "Bearer "; Fmt k]]. *)
Inductive fpart : Type :=
| Lit (s : string)
| Fmt (v : value).

Definition fstring := list fpart.

(** The exceptions the provider code can let escape. *)
Inductive exn : Type :=
| ValueError (msg : string)
| Exception (msg : fstring)
| JSONDecodeError
| AttributeError
| TypeError
| KeyError
| IndexError
| RecursionError
| UnicodeDecodeError
| HTTPError (detail : string).

Inductive result (A : Type) : Type :=
| Ok (a : A)
| Raise (e : exn).
Arguments Ok {A} a.
Arguments Raise {A} e.

Definition rbind {A B} (r : result A) (k : A -> result B) : result B :=
  match r with
  | Ok a => k a
  | Raise e => Raise e
  end.

(** A [for] loop whose body may raise and that appends one item per turn. *)
Fixpoint for_each {A B} (body : A -> result B) (l : list A) : result (list B) :=
  match l with
  | [] => Ok []
  | x :: l' =>
      rbind (body x) (fun y =>
      rbind (for_each body l') (fun ys => Ok (y :: ys)))
  end.

(** The limits of the interpreter that decoding a JSON document can run
    into.  [nesting] is the number of levels of nested lists and objects,
    beyond the first, that the recursion limit leaves room for; like
    every call the code makes, decoding a flat document is taken to fit.
    [int_max_str_digits] is [sys.get_int_max_str_digits()], with 0 for no
    limit, and [int_digits_error n] is the message of the [ValueError]
    that [int] raises for a literal of [n] digits (its wording depends on
    the version of CPython). *)
Record interpreter := mkInterpreter {
  nesting : nat;
  int_max_str_digits : nat;
  int_digits_error : nat -> string
}.

(** [o.get(k, dflt)] on any object: only a dict has the method. *)
Definition get (o : value) (k : string) (dflt : value) : result value :=
  match o with
  | VDict d => Ok (dict_get d k dflt)
  | _ => Raise AttributeError
  end.

(** Strings are UTF-8 byte strings; a character is a lead byte with the
    continuation bytes (10xxxxxx) that follow it. *)
Definition is_continuation (c : ascii) : bool :=
  let n := N_of_ascii c in ((128 <=? n) && (n <? 192))%N.

Fixpoint chars (s : string) : list string :=
  match s with
  | EmptyString => []
  | String c rest =>
      match chars rest with
      | String c' g :: gs =>
          if is_continuation c' then String c (String c' g) :: gs
          else String c EmptyString :: String c' g :: gs
      | _ => [String c EmptyString]
      end
  end.

(** [o[0]] *)
Definition getitem0 (o : value) : result value :=
  match o with
  | VList (x :: _) => Ok x
  | VList [] => Raise IndexError
  | VStr s =>
      match chars s with
      | c :: _ => Ok (VStr c)
      | [] => Raise IndexError
      end
  | VDict _ => Raise KeyError
  | _ => Raise TypeError
  end.

(** The items [for x in o] runs through. *)
Definition iter (o : value) : result (list value) :=
  match o with
  | VList l => Ok l
  | VStr s => Ok (map VStr (chars s))
  | VDict d => Ok (map (fun kv => VStr (fst kv)) d)
  | _ => Raise TypeError
  end.

End Py.

(** ** The [json] module of the Python standard library

    [json.loads] on a [str] as CPython runs it (the scanner of
    [json/scanner.py] and [json/decoder.py], strict mode, no hooks):
    whitespace is space, tab, line feed and carriage return; [NaN],
    [Infinity] and [-Infinity] are accepted; a duplicate key keeps its
    last value; text after the document is an error.  Decoding fails in
    three ways: with a [JSONDecodeError] where the text is not JSON, with
    a [RecursionError] on entering a list or object nested deeper than
    the interpreter has room for, and with a [ValueError] on an integer
    literal of more digits than [int] converts.  Whatever comes first in
    the text decides. *)

Module Json.
Import Py.

(** How decoding can fail; [Unicode] is the [UnicodeDecodeError] of
    decoding bytes, which [json.loads] on a [str] never raises. *)
Inductive failure : Type :=
| Syntax
| Recursion
| Digits (msg : string)
| Unicode.

Inductive attempt (A : Type) : Type :=
| Got (a : A)
| Failed (f : failure).
Arguments Got {A} a.
Arguments Failed {A} f.

(** The exception a failure is raised as. *)
Definition exn_of (f : failure) : exn :=
  match f with
  | Syntax => JSONDecodeError
  | Recursion => RecursionError
  | Digits msg => ValueError msg
  | Unicode => UnicodeDecodeError
  end.

Definition to_result {A} (a : attempt A) : result A :=
  match a with
  | Got x => Ok x
  | Failed f => Raise (exn_of f)
  end.

(** [int] refuses a literal of more than 640 digits that is longer than
    a non-zero [int_max_str_digits]. *)
Definition over_limit (py : interpreter) (ndigits : nat) : bool :=
  (640 <? ndigits)%nat && (0 <? int_max_str_digits py)%nat
  && (int_max_str_digits py <? ndigits)%nat.

Definition is_ws (c : ascii) : bool :=
  match c with
  | " "%char | "009"%char | "010"%char | "013"%char => true
  | _ => false
  end.

Fixpoint skip_ws (s : string) : string :=
  match s with
  | String c r => if is_ws c then skip_ws r else s
  | EmptyString => s
  end.

Fixpoint strip_prefix (p s : string) : option string :=
  match p, s with
  | EmptyString, _ => Some s
  | String a p', String b s' => if Ascii.eqb a b then strip_prefix p' s' else None
  | String _ _, EmptyString => None
  end.

Definition digit_of (c : ascii) : option Z :=
  let n := Z.of_N (N_of_ascii c) in
  if (48 <=? n) && (n <=? 57) then Some (n - 48) else None.

Definition hex_of (c : ascii) : option Z :=
  let n := Z.of_N (N_of_ascii c) in
  if (48 <=? n) && (n <=? 57) then Some (n - 48)
  else if (65 <=? n) && (n <=? 70) then Some (n - 55)
  else if (97 <=? n) && (n <=? 102) then Some (n - 87)
  else None.

(** The longest run of decimal digits at the head of [s]. *)
Fixpoint digits (s : string) : list Z * string :=
  match s with
  | String c r =>
      match digit_of c with
      | Some d => let (ds, r') := digits r in (d :: ds, r')
      | None => ([], s)
      end
  | EmptyString => ([], s)
  end.

Definition number_of (ds : list Z) : Z :=
  fold_left (fun acc d => 10 * acc + d) ds 0.

(** [float(text)] for a decimal [m * 10^e10] with [m >= 0]: the nearest
    binary64, ties to even.  A negative exponent is handled by a quotient
    with more than 64 significant bits and a sticky bit. *)
Definition float_of_decimal (neg : bool) (m e10 : Z) : spec_float :=
  match m with
  | Zpos _ =>
      if 0 <=? e10 then
        binary_round 53 1024 neg (Z.to_pos (m * 10 ^ e10)) 0
      else
        let D := 10 ^ (- e10) in
        let k := 64 + Z.log2_up D in
        let q := (m * 2 ^ k) / D in
        let sticky := if (m * 2 ^ k) mod D =? 0 then 0 else 1 in
        binary_round 53 1024 neg (Z.to_pos (2 * q + sticky)) (- k - 1)
  | _ => S754_zero neg
  end.

(** NUMBER_RE: an optional minus sign, then 0 or a non-zero digit and
    more digits; optionally a dot and one digit or more; optionally e or
    E, an optional sign and one digit or more.  The value is an int
    without fraction and exponent, a float otherwise; with it comes the
    number of digits of the integer part. *)
Definition match_number (s : string) : option (value * nat * string) :=
  let (neg, s1) :=
    match s with
    | String "-"%char r => (true, r)
    | _ => (false, s)
    end in
  match s1 with
  | String c r =>
      match digit_of c with
      | None => None
      | Some d0 =>
          let (ipart, s2) :=
            if d0 =? 0 then ([0], r)
            else let (ds, r') := digits r in (d0 :: ds, r') in
          let (frac, s3) :=
            match s2 with
            | String "."%char r2 =>
                match digits r2 with
                | ([], _) => ([], s2)
                | (fs, r3) => (fs, r3)
                end
            | _ => ([], s2)
            end in
          let (exp, s4) :=
            match s3 with
            | String e r3 =>
                if Ascii.eqb e "e"%char || Ascii.eqb e "E"%char then
                  let (eneg, r4) :=
                    match r3 with
                    | String "-"%char r => (true, r)
                    | String "+"%char r => (false, r)
                    | _ => (false, r3)
                    end in
                  match digits r4 with
                  | ([], _) => (None, s3)
                  | (es, r5) =>
                      (Some (if eneg then - number_of es else number_of es), r5)
                  end
                else (None, s3)
            | EmptyString => (None, s3)
            end in
          match frac, exp with
          | [], None =>
              Some (VInt (if neg then - number_of ipart else number_of ipart),
                    length ipart, s4)
          | _, _ =>
              let e := match exp with Some e => e | None => 0 end in
              Some (VFloat (float_of_decimal neg (number_of (ipart ++ frac))
                              (e - Z.of_nat (length frac))),
                    length ipart, s4)
          end
      end
  | EmptyString => None
  end.

Definition byte (n : Z) : ascii := ascii_of_N (Z.to_N n).

(** [chr(cp)] in UTF-8 (a lone surrogate is encoded like any other
    three-byte code point). *)
Definition chr (cp : Z) : string :=
  if cp <? 128 then String (byte cp) EmptyString
  else if cp <? 2048 then
    String (byte (192 + cp / 64)) (String (byte (128 + cp mod 64)) EmptyString)
  else if cp <? 65536 then
    String (byte (224 + cp / 4096))
      (String (byte (128 + (cp / 64) mod 64))
         (String (byte (128 + cp mod 64)) EmptyString))
  else
    String (byte (240 + cp / 262144))
      (String (byte (128 + (cp / 4096) mod 64))
         (String (byte (128 + (cp / 64) mod 64))
            (String (byte (128 + cp mod 64)) EmptyString))).

(** Four hexadecimal digits. *)
Definition decode_uXXXX (s : string) : option (Z * string) :=
  match s with
  | String a (String b (String c (String d r))) =>
      match hex_of a, hex_of b, hex_of c, hex_of d with
      | Some x, Some y, Some z, Some w => Some (((x * 16 + y) * 16 + z) * 16 + w, r)
      | _, _, _, _ => None
      end
  | _ => None
  end.

(** BACKSLASH *)
Definition backslash (c : ascii) : option string :=
  match c with
  | "034"%char => Some (String "034"%char EmptyString)
  | "\"%char => Some "\"
  | "/"%char => Some "/"
  | "b"%char => Some (String "008"%char EmptyString)
  | "f"%char => Some (String "012"%char EmptyString)
  | "n"%char => Some (String "010"%char EmptyString)
  | "r"%char => Some (String "013"%char EmptyString)
  | "t"%char => Some (String "009"%char EmptyString)
  | _ => None
  end.

(** [scanstring], strict: [s] starts just after the opening quote; the
    result is the decoded string and the text after the closing quote. *)
Fixpoint scanstring (fuel : nat) (s : string) : option (string * string) :=
  match fuel with
  | O => None
  | S n =>
      match s with
      | EmptyString => None
      | String "034"%char r => Some (EmptyString, r)
      | String "\"%char (String "u"%char r) =>
          match decode_uXXXX r with
          | None => None
          | Some (uni, r1) =>
              let (uni', r2) :=
                if (55296 <=? uni) && (uni <=? 56319) then
                  match r1 with
                  | String "\"%char (String "u"%char r1') =>
                      match decode_uXXXX r1' with
                      | Some (uni2, r2) =>
                          if (56320 <=? uni2) && (uni2 <=? 57343)
                          then (65536 + ((uni - 55296) * 1024 + (uni2 - 56320)), r2)
                          else (uni, r1)
                      | None => (uni, r1)
                      end
                  | _ => (uni, r1)
                  end
                else (uni, r1) in
              match scanstring n r2 with
              | Some (str, rest) => Some (chr uni' ++ str, rest)
              | None => None
              end
          end
      | String "\"%char (String c r) =>
          match backslash c, scanstring n r with
          | Some e, Some (str, rest) => Some (e ++ str, rest)
          | _, _ => None
          end
      | String "\"%char EmptyString => None
      | String c r =>
          if (N_of_ascii c <? 32)%N then None
          else
            match scanstring n r with
            | Some (str, rest) => Some (String c str, rest)
            | None => None
            end
      end
  end.

(** [dict(pairs)] *)
Definition dict_of_pairs (pairs : list (string * value)) : dict :=
  fold_left (fun d kv => dict_set d (fst kv) (snd kv)) pairs [].

(** [scan_once] with the loops of [JSONArray] and [JSONObject].  [depth]
    is the number of levels of lists and objects that may still be
    entered; each call gets the caller's fuel less one. *)
Fixpoint scan_once (py : interpreter) (depth fuel : nat) (s : string)
  {struct fuel} : attempt (value * string) :=
  match fuel with
  | O => Failed Syntax
  | S n =>
      match s with
      | String "034"%char r =>
          match scanstring (String.length r) r with
          | Some (str, r') => Got (VStr str, r')
          | None => Failed Syntax
          end
      | String "{"%char r =>
          match depth with
          | O => Failed Recursion
          | S depth' =>
              match skip_ws r with
              | String "}"%char r' => Got (VDict [], r')
              | String "034"%char r' => object_items py depth' n r' []
              | _ => Failed Syntax
              end
          end
      | String "["%char r =>
          match depth with
          | O => Failed Recursion
          | S depth' =>
              match skip_ws r with
              | String "]"%char r' => Got (VList [], r')
              | r' => array_items py depth' n r' []
              end
          end
      | _ =>
          match strip_prefix "null" s, strip_prefix "true" s, strip_prefix "false" s with
          | Some r, _, _ => Got (VNone, r)
          | _, Some r, _ => Got (VBool true, r)
          | _, _, Some r => Got (VBool false, r)
          | None, None, None =>
              match match_number s with
              | Some (VInt i, ndigits, r) =>
                  if over_limit py ndigits
                  then Failed (Digits (int_digits_error py ndigits))
                  else Got (VInt i, r)
              | Some (v, _, r) => Got (v, r)
              | None =>
                  match strip_prefix "NaN" s, strip_prefix "Infinity" s,
                        strip_prefix "-Infinity" s with
                  | Some r, _, _ => Got (VFloat S754_nan, r)
                  | _, Some r, _ => Got (VFloat (S754_infinity false), r)
                  | _, _, Some r => Got (VFloat (S754_infinity true), r)
                  | None, None, None => Failed Syntax
                  end
              end
          end
      end
  end
with array_items (py : interpreter) (depth fuel : nat) (s : string)
  (acc : list value) {struct fuel} : attempt (value * string) :=
  match fuel with
  | O => Failed Syntax
  | S n =>
      match scan_once py depth n s with
      | Failed f => Failed f
      | Got (v, r) =>
          match skip_ws r with
          | String "]"%char r' => Got (VList (rev (v :: acc)), r')
          | String ","%char r' => array_items py depth n (skip_ws r') (v :: acc)
          | _ => Failed Syntax
          end
      end
  end
with object_items (py : interpreter) (depth fuel : nat) (s : string)
  (acc : list (string * value)) {struct fuel} : attempt (value * string) :=
  match fuel with
  | O => Failed Syntax
  | S n =>
      match scanstring (String.length s) s with
      | None => Failed Syntax
      | Some (key, r) =>
          match skip_ws r with
          | String ":"%char r1 =>
              match scan_once py depth n (skip_ws r1) with
              | Failed f => Failed f
              | Got (v, r2) =>
                  match skip_ws r2 with
                  | String "}"%char r3 =>
                      Got (VDict (dict_of_pairs (rev ((key, v) :: acc))), r3)
                  | String ","%char r3 =>
                      match skip_ws r3 with
                      | String "034"%char r4 =>
                          object_items py depth n r4 ((key, v) :: acc)
                      | _ => Failed Syntax
                      end
                  | _ => Failed Syntax
                  end
              end
          | _ => Failed Syntax
          end
      end
  end.

(** U+FEFF in UTF-8 *)
Definition BOM : string :=
  String (byte 239) (String (byte 187) (String (byte 191) EmptyString)).

(** [JSONDecoder.decode] on a [str]. *)
Definition decode (py : interpreter) (s : string) : attempt value :=
  match strip_prefix BOM s with
  | Some _ => Failed Syntax
  | None =>
      match scan_once py (S (nesting py)) (2 * String.length s + 2) (skip_ws s) with
      | Got (v, r) =>
          match skip_ws r with
          | EmptyString => Got v
          | _ => Failed Syntax
          end
      | Failed f => Failed f
      end
  end.

(** [json.loads(o)]: anything but a [str] is a [TypeError]. *)
Definition loads (py : interpreter) (o : value) : result value :=
  match o with
  | VStr s => to_result (decode py s)
  | _ => Raise TypeError
  end.

End Json.

(** JSON text is written with ['] for the double quote. *)
Fixpoint q (s : string) : string :=
  match s with
  | EmptyString => EmptyString
  | String c r => String (if Ascii.eqb c "'"%char then "034"%char else c) (q r)
  end.

(** ** The neutral chat model *)

Import Py.

(** Modelled from the spec: the classes [ChatRequest] (with its messages
    and tool specifications), [ChatResponse] and [ToolCall] that the
    providers import from [amplifier_core], which is not part of this
    repository.  They are the plain records of the spec's data model; a
    constructor stores its arguments as they are given.  A request's messages and tools are objects read by attribute
    ([msg.role], [tool.name]); an absent optional field is [None]. *)
Module ChatMessage.
Record t := mk { role : value; content : value }.
End ChatMessage.

Module ToolSpec.
Record t := mk { name : value; description : value; parameters : value }.
End ToolSpec.

Module ChatRequest.
Record t := mk {
  messages : list ChatMessage.t;
  tools : option (list ToolSpec.t);
  model : value;
  temperature : value;
  max_tokens : value
}.
End ChatRequest.

Module ToolCall.
Record t := mk { id : value; type : value; function : value }.

(** [function["arguments"]] of a tool call, when [function] is a dict
    that has the key. *)
Definition arguments (tc : t) : option value :=
  match function tc with
  | VDict f => lookup "arguments" f
  | _ => None
  end.
End ToolCall.

Module ChatResponse.
Record t := mk {
  id : value;
  model : value;
  role : value;
  content : value;
  tool_calls : list ToolCall.t;
  usage : value
}.
End ChatResponse.

(** Modelled from the spec: the classes [ProviderInfo] and [ModelInfo] of
    [amplifier_core], which is not part of this repository; plain records
    of the keyword arguments the providers construct them with. *)
Module ProviderInfo.
Record t := mk {
  id : string;
  display_name : string;
  credential_env_vars : list string;
  capabilities : list string;
  defaults : dict;
  config_fields : list dict
}.
End ProviderInfo.

Module ModelInfo.
Record t := mk {
  id : string;
  display_name : string;
  context_window : Z;
  max_output_tokens : Z;
  capabilities : list string
}.
End ModelInfo.

(** ** Effects: the process environment and the network *)

Module Http.
(** The arguments of [client.post(url, headers=, json=, timeout=)]. *)
Record Request := mkRequest {
  url : fstring;
  headers : list (string * fstring);
  json : value;
  timeout : spec_float
}.

(** What the code reads of an [httpx.Response]: the status, the body as
    text, and what [response.json()] returns or raises.  Parsing the body
    is the business of [httpx] and [json], so its outcome is part of the
    response; it fails in the ways decoding can fail. *)
Record Response := mkResponse {
  status_code : Z;
  text : string;
  json_result : Json.attempt value
}.
End Http.

(** The world a call runs in: [os.environ], the interpreter's limits, and
    what the network answers to a request (a response, or an exception of
    the HTTP client). *)
Record World := mkWorld {
  environ : string -> option string;
  python : interpreter;
  network : Http.Request -> result Http.Response
}.

(** A computation reads the world and extends the log of requests sent. *)
Definition IO (A : Type) : Type :=
  World -> list Http.Request -> result A * list Http.Request.

Definition ret {A} (a : A) : IO A := fun _ log => (Ok a, log).

Definition raise {A} (e : exn) : IO A := fun _ log => (Raise e, log).

Definition bind {A B} (c : IO A) (k : A -> IO B) : IO B :=
  fun w log =>
    match c w log with
    | (Ok a, log') => k a w log'
    | (Raise e, log') => (Raise e, log')
    end.

Definition lift {A} (r : result A) : IO A := fun _ log => (r, log).

(** [os.environ.get(name)] *)
Definition os_environ_get (name : string) : IO value :=
  fun w log =>
    (Ok match environ w name with Some s => VStr s | None => VNone end, log).

(** [await client.post(...)] inside [async with httpx.AsyncClient()] *)
Definition client_post (r : Http.Request) : IO Http.Response :=
  fun w log => (network w r, (log ++ [r])%list).

(** The interpreter the call runs in. *)
Definition the_interpreter : IO interpreter :=
  fun w log => (Ok (python w), log).

(** [response.json()] *)
Definition response_json (response : Http.Response) : result value :=
  Json.to_result (Http.json_result response).

Declare Scope io_scope.
Delimit Scope io_scope with io.
Notation "x <- c ;; k" := (bind c (fun x => k))
  (at level 61, c at next level, right associativity) : io_scope.
Notation "x <~ c ;; k" := (rbind c (fun x => k))
  (at level 61, c at next level, right associativity) : io_scope.
Local Open Scope io_scope.

(** [if o:] for an optional list *)
Definition nonempty {A} (o : option (list A)) : bool :=
  match o with
  | Some (_ :: _) => true
  | _ => false
  end.

(** [30.0] *)
Definition thirty : spec_float := Eval vm_compute in Json.float_of_decimal false 300 (-1).

(** ** DeepSeek *)

Module DeepSeek.

Record Provider := mkProvider {
  config : dict;
  api_key : value;
  base_url : value;
  default_model : value;
  _name : string
}.

(** [DeepSeekProvider._get_api_key] *)
Definition _get_api_key (config : dict) : IO value :=
  let api_key := dict_get config "api_key" VNone in
  if truthy api_key then ret api_key
  else
    api_key <- os_environ_get "DEEPSEEK_API_KEY" ;;
    if truthy api_key then ret api_key
    else raise (ValueError
           "DeepSeek API key not found in config or environment variable DEEPSEEK_API_KEY").

(** [DeepSeekProvider.__init__] *)
Definition __init__ (config : dict) : IO Provider :=
  api_key <- _get_api_key config ;;
  ret {| config := config;
         api_key := api_key;
         base_url := dict_get config "base_url" (VStr "https://api.deepseek.com/v1");
         default_model := dict_get config "default_model" (VStr "deepseek-chat");
         _name := "deepseek" |}.

(** [DeepSeekProvider.complete], block by block. *)
Section Complete.
Variables (self : Provider) (request : ChatRequest.t) (kwargs : dict).

Definition model : value :=
  dict_get kwargs "model" (or_ (ChatRequest.model request) (default_model self)).
Definition messages := ChatRequest.messages request.
Definition tools := ChatRequest.tools request.
Definition temperature : value :=
  dict_get kwargs "temperature" (ChatRequest.temperature request).
Definition max_tokens : value :=
  dict_get kwargs "max_tokens" (ChatRequest.max_tokens request).

(** Convert messages to DeepSeek format *)
Definition deepseek_messages : list value :=
  map (fun msg =>
         let role := ChatMessage.role msg in
         let content := ChatMessage.content msg in
         VDict [("role", role); ("content", content)])
      messages.

(** Convert tools to DeepSeek format *)
Definition deepseek_tools : option (list value) :=
  if nonempty tools then
    match tools with
    | Some tools =>
        Some (map (fun tool =>
                     VDict [("type", VStr "function");
                            ("function",
                             VDict [("name", ToolSpec.name tool);
                                    ("description", ToolSpec.description tool);
                                    ("parameters", ToolSpec.parameters tool)])])
                  tools)
    | None => None
    end
  else None.

(** Build request payload *)
Definition payload : dict :=
  let payload := [("model", model);
                  ("messages", VList deepseek_messages);
                  ("temperature", temperature);
                  ("max_tokens", max_tokens)] in
  if nonempty deepseek_tools then
    match deepseek_tools with
    | Some deepseek_tools => dict_set payload "tools" (VList deepseek_tools)
    | None => payload
    end
  else payload.

Definition headers : list (string * fstring) :=
  [("Authorization", [Lit "Bearer "; Fmt (api_key self)]);
   ("Content-Type", [Lit "application/json"])].

(** The request handed to [client.post]. *)
Definition post_request : Http.Request :=
  {| Http.url := [Fmt (base_url self); Lit "/chat/completions"];
     Http.headers := headers;
     Http.json := VDict payload;
     Http.timeout := thirty |}.

(** The body of the loop over [tool_calls]: one [ToolCall] per entry. *)
Definition tool_call_obj (py : interpreter) (tool_call : value)
  : result ToolCall.t :=
  tool_call_id <~ get tool_call "id" VNone ;;
  tool_call_type <~ get tool_call "type" VNone ;;
  function <~ get tool_call "function" (VDict []) ;;
  function_name <~ get function "name" VNone ;;
  function_args <~ get function "arguments" (VStr "{}") ;;
  args <~ match Json.loads py function_args with
          | Raise JSONDecodeError => Ok (VDict [])
          | r => r
          end ;;
  Ok (ToolCall.mk tool_call_id tool_call_type
        (VDict [("name", function_name); ("arguments", args)])).

(** Parse response, convert to ChatResponse: from [response.json()] to
    the returned [chat_response]. *)
Definition chat_response (py : interpreter) (response : Http.Response)
  : result ChatResponse.t :=
  response_data <~ response_json response ;;
  choices <~ get response_data "choices" (VList []) ;;
  if negb (truthy choices) then
    Raise (Exception [Lit "DeepSeek API returned no choices"])
  else
    choice <~ getitem0 choices ;;
    message <~ get choice "message" (VDict []) ;;
    role <~ get message "role" (VStr "assistant") ;;
    content <~ get message "content" (VStr "") ;;
    tool_calls <~ get message "tool_calls" (VList []) ;;
    tool_calls <~ iter tool_calls ;;
    tool_calls_list <~ for_each (tool_call_obj py) tool_calls ;;
    id <~ get response_data "id" (VStr "") ;;
    usage <~ get response_data "usage" (VDict []) ;;
    Ok (ChatResponse.mk id model role content tool_calls_list usage).

Definition complete : IO ChatResponse.t :=
  response <- client_post post_request ;;
  if negb (Http.status_code response =? 200) then
    raise (Exception [Lit "DeepSeek API error: ";
                      Fmt (VInt (Http.status_code response));
                      Lit " - ";
                      Fmt (VStr (Http.text response))])
  else
    py <- the_interpreter ;;
    lift (chat_response py response).

End Complete.

(** [DeepSeekProvider.parse_tool_calls] *)
Definition parse_tool_calls (self : Provider) (response : ChatResponse.t)
  : list ToolCall.t :=
  ChatResponse.tool_calls response.

(** [DeepSeekProvider.get_info] *)
Definition get_info (self : Provider) : ProviderInfo.t :=
  {| ProviderInfo.id := "deepseek";
     ProviderInfo.display_name := "DeepSeek";
     ProviderInfo.credential_env_vars := ["DEEPSEEK_API_KEY"];
     ProviderInfo.capabilities := ["chat"; "completion"; "tool_calls"];
     ProviderInfo.defaults :=
       [("base_url", VStr "https://api.deepseek.com/v1");
        ("default_model", VStr "deepseek-chat")];
     ProviderInfo.config_fields :=
       [[("id", VStr "api_key");
         ("field_type", VStr "secret");
         ("prompt", VStr "DeepSeek API key");
         ("display_name", VStr "API Key");
         ("env_var", VStr "DEEPSEEK_API_KEY");
         ("required", VBool true)];
        [("id", VStr "base_url");
         ("field_type", VStr "text");
         ("prompt", VStr "DeepSeek API base URL");
         ("display_name", VStr "Base URL");
         ("default", VStr "https://api.deepseek.com/v1");
         ("required", VBool false)]] |}.

(** [DeepSeekProvider.list_models] *)
Definition list_models (self : Provider) : list ModelInfo.t :=
  let models :=
    [ModelInfo.mk "deepseek-chat" "DeepSeek Chat" 128000 4096
       ["chat"; "tool_calls"];
     ModelInfo.mk "deepseek-llm" "DeepSeek LLM" 128000 4096
       ["chat"; "completion"];
     ModelInfo.mk "deepseek-coder" "DeepSeek Coder" 128000 4096
       ["chat"; "completion"; "code"];
     ModelInfo.mk "deepseek-visual" "DeepSeek Visual" 128000 4096
       ["chat"; "vision"];
     ModelInfo.mk "deepseek-r1" "DeepSeek R1" 128000 4096
       ["chat"; "completion"; "tool_calls"]] in
  models.

End DeepSeek.

(** ** Qwen *)

Module Qwen.

Record Provider := mkProvider {
  config : dict;
  api_key : value;
  base_url : value;
  default_model : value;
  _name : string
}.

(** [QwenProvider._get_api_key] *)
Definition _get_api_key (config : dict) : IO value :=
  let api_key := dict_get config "api_key" VNone in
  if truthy api_key then ret api_key
  else
    api_key <- os_environ_get "QWEN_API_KEY" ;;
    if truthy api_key then ret api_key
    else raise (ValueError
           "Qwen API key not found in config or environment variable QWEN_API_KEY").

(** [QwenProvider.__init__] *)
Definition __init__ (config : dict) : IO Provider :=
  api_key <- _get_api_key config ;;
  ret {| config := config;
         api_key := api_key;
         base_url := dict_get config "base_url" (VStr "https://api.tongyi.ai/v1");
         default_model := dict_get config "default_model" (VStr "qwen2.5-7b-instruct");
         _name := "qwen" |}.

(** [QwenProvider.complete], block by block. *)
Section Complete.
Variables (self : Provider) (request : ChatRequest.t) (kwargs : dict).

Definition model : value :=
  dict_get kwargs "model" (or_ (ChatRequest.model request) (default_model self)).
Definition messages := ChatRequest.messages request.
Definition tools := ChatRequest.tools request.
Definition temperature : value :=
  dict_get kwargs "temperature" (ChatRequest.temperature request).
Definition max_tokens : value :=
  dict_get kwargs "max_tokens" (ChatRequest.max_tokens request).

(** Convert messages to Qwen format *)
Definition qwen_messages : list value :=
  map (fun msg =>
         let role := ChatMessage.role msg in
         let content := ChatMessage.content msg in
         VDict [("role", role); ("content", content)])
      messages.

(** Convert tools to Qwen format *)
Definition qwen_tools : option (list value) :=
  if nonempty tools then
    match tools with
    | Some tools =>
        Some (map (fun tool =>
                     VDict [("type", VStr "function");
                            ("function",
                             VDict [("name", ToolSpec.name tool);
                                    ("description", ToolSpec.description tool);
                                    ("parameters", ToolSpec.parameters tool)])])
                  tools)
    | None => None
    end
  else None.

(** Build request payload *)
Definition payload : dict :=
  let payload := [("model", model);
                  ("messages", VList qwen_messages);
                  ("temperature", temperature);
                  ("max_tokens", max_tokens)] in
  if nonempty qwen_tools then
    match qwen_tools with
    | Some qwen_tools => dict_set payload "tools" (VList qwen_tools)
    | None => payload
    end
  else payload.

Definition headers : list (string * fstring) :=
  [("Authorization", [Lit "Bearer "; Fmt (api_key self)]);
   ("Content-Type", [Lit "application/json"])].

(** The request handed to [client.post]. *)
Definition post_request : Http.Request :=
  {| Http.url := [Fmt (base_url self); Lit "/chat/completions"];
     Http.headers := headers;
     Http.json := VDict payload;
     Http.timeout := thirty |}.

(** The body of the loop over [tool_calls]: one [ToolCall] per entry. *)
Definition tool_call_obj (py : interpreter) (tool_call : value)
  : result ToolCall.t :=
  tool_call_id <~ get tool_call "id" VNone ;;
  tool_call_type <~ get tool_call "type" VNone ;;
  function <~ get tool_call "function" (VDict []) ;;
  function_name <~ get function "name" VNone ;;
  function_args <~ get function "arguments" (VStr "{}") ;;
  args <~ match Json.loads py function_args with
          | Raise JSONDecodeError => Ok (VDict [])
          | r => r
          end ;;
  Ok (ToolCall.mk tool_call_id tool_call_type
        (VDict [("name", function_name); ("arguments", args)])).

(** Parse response, convert to ChatResponse: from [response.json()] to
    the returned [chat_response]. *)
Definition chat_response (py : interpreter) (response : Http.Response)
  : result ChatResponse.t :=
  response_data <~ response_json response ;;
  choices <~ get response_data "choices" (VList []) ;;
  if negb (truthy choices) then
    Raise (Exception [Lit "Qwen API returned no choices"])
  else
    choice <~ getitem0 choices ;;
    message <~ get choice "message" (VDict []) ;;
    role <~ get message "role" (VStr "assistant") ;;
    content <~ get message "content" (VStr "") ;;
    tool_calls <~ get message "tool_calls" (VList []) ;;
    tool_calls <~ iter tool_calls ;;
    tool_calls_list <~ for_each (tool_call_obj py) tool_calls ;;
    id <~ get response_data "id" (VStr "") ;;
    usage <~ get response_data "usage" (VDict []) ;;
    Ok (ChatResponse.mk id model role content tool_calls_list usage).

Definition complete : IO ChatResponse.t :=
  response <- client_post post_request ;;
  if negb (Http.status_code response =? 200) then
    raise (Exception [Lit "Qwen API error: ";
                      Fmt (VInt (Http.status_code response));
                      Lit " - ";
                      Fmt (VStr (Http.text response))])
  else
    py <- the_interpreter ;;
    lift (chat_response py response).

End Complete.

(** [QwenProvider.parse_tool_calls] *)
Definition parse_tool_calls (self : Provider) (response : ChatResponse.t)
  : list ToolCall.t :=
  ChatResponse.tool_calls response.

(** [QwenProvider.get_info] *)
Definition get_info (self : Provider) : ProviderInfo.t :=
  {| ProviderInfo.id := "qwen";
     ProviderInfo.display_name := "Qwen";
     ProviderInfo.credential_env_vars := ["QWEN_API_KEY"];
     ProviderInfo.capabilities := ["chat"; "completion"; "tool_calls"];
     ProviderInfo.defaults :=
       [("base_url", VStr "https://api.tongyi.ai/v1");
        ("default_model", VStr "qwen2.5-7b-instruct")];
     ProviderInfo.config_fields :=
       [[("id", VStr "api_key");
         ("field_type", VStr "secret");
         ("prompt", VStr "Qwen API key");
         ("display_name", VStr "API Key");
         ("env_var", VStr "QWEN_API_KEY");
         ("required", VBool true)];
        [("id", VStr "base_url");
         ("field_type", VStr "text");
         ("prompt", VStr "Qwen API base URL");
         ("display_name", VStr "Base URL");
         ("default", VStr "https://api.tongyi.ai/v1");
         ("required", VBool false)]] |}.

(** [QwenProvider.list_models] *)
Definition list_models (self : Provider) : list ModelInfo.t :=
  let models :=
    [ModelInfo.mk "qwen2.5-72b-instruct" "Qwen 2.5 72B Instruct" 256000 4096
       ["chat"; "completion"; "tool_calls"];
     ModelInfo.mk "qwen2.5-32b-instruct" "Qwen 2.5 32B Instruct" 256000 4096
       ["chat"; "completion"; "tool_calls"];
     ModelInfo.mk "qwen2.5-14b-instruct" "Qwen 2.5 14B Instruct" 256000 4096
       ["chat"; "completion"; "tool_calls"];
     ModelInfo.mk "qwen2.5-7b-instruct" "Qwen 2.5 7B Instruct" 256000 4096
       ["chat"; "completion"; "tool_calls"];
     ModelInfo.mk "qwen2.5-3b-instruct" "Qwen 2.5 3B Instruct" 256000 4096
       ["chat"; "completion"];
     ModelInfo.mk "qwen2.5-1.5b-instruct" "Qwen 2.5 1.5B Instruct" 256000 4096
       ["chat"; "completion"]] in
  models.

End Qwen.

(** ** Doubao *)

Module Doubao.

Record Provider := mkProvider {
  config : dict;
  api_key : value;
  base_url : value;
  default_model : value;
  _name : string
}.

(** [DoubaoProvider._get_api_key] *)
Definition _get_api_key (config : dict) : IO value :=
  let api_key := dict_get config "api_key" VNone in
  if truthy api_key then ret api_key
  else
    api_key <- os_environ_get "DOUBAO_API_KEY" ;;
    if truthy api_key then ret api_key
    else raise (ValueError
           "Doubao API key not found in config or environment variable DOUBAO_API_KEY").

(** [DoubaoProvider.__init__] *)
Definition __init__ (config : dict) : IO Provider :=
  api_key <- _get_api_key config ;;
  ret {| config := config;
         api_key := api_key;
         base_url := dict_get config "base_url" (VStr "https://ark.cn-beijing.volces.com/api/v3");
         default_model := dict_get config "default_model" (VStr "doubao-1.5-pro-128k");
         _name := "doubao" |}.

(** [DoubaoProvider.complete], block by block. *)
Section Complete.
Variables (self : Provider) (request : ChatRequest.t) (kwargs : dict).

Definition model : value :=
  dict_get kwargs "model" (or_ (ChatRequest.model request) (default_model self)).
Definition messages := ChatRequest.messages request.
Definition tools := ChatRequest.tools request.
Definition temperature : value :=
  dict_get kwargs "temperature" (ChatRequest.temperature request).
Definition max_tokens : value :=
  dict_get kwargs "max_tokens" (ChatRequest.max_tokens request).

(** Convert messages to Doubao format *)
Definition doubao_messages : list value :=
  map (fun msg =>
         let role := ChatMessage.role msg in
         let content := ChatMessage.content msg in
         VDict [("role", role); ("content", content)])
      messages.

(** Convert tools to Doubao format *)
Definition doubao_tools : option (list value) :=
  if nonempty tools then
    match tools with
    | Some tools =>
        Some (map (fun tool =>
                     VDict [("type", VStr "function");
                            ("function",
                             VDict [("name", ToolSpec.name tool);
                                    ("description", ToolSpec.description tool);
                                    ("parameters", ToolSpec.parameters tool)])])
                  tools)
    | None => None
    end
  else None.

(** Build request payload *)
Definition payload : dict :=
  let payload := [("model", model);
                  ("messages", VList doubao_messages);
                  ("temperature", temperature);
                  ("max_tokens", max_tokens)] in
  if nonempty doubao_tools then
    match doubao_tools with
    | Some doubao_tools => dict_set payload "tools" (VList doubao_tools)
    | None => payload
    end
  else payload.

Definition headers : list (string * fstring) :=
  [("Authorization", [Lit "Bearer "; Fmt (api_key self)]);
   ("Content-Type", [Lit "application/json"])].

(** The request handed to [client.post]. *)
Definition post_request : Http.Request :=
  {| Http.url := [Fmt (base_url self); Lit "/chat/completions"];
     Http.headers := headers;
     Http.json := VDict payload;
     Http.timeout := thirty |}.

(** The body of the loop over [tool_calls]: one [ToolCall] per entry. *)
Definition tool_call_obj (py : interpreter) (tool_call : value)
  : result ToolCall.t :=
  tool_call_id <~ get tool_call "id" VNone ;;
  tool_call_type <~ get tool_call "type" VNone ;;
  function <~ get tool_call "function" (VDict []) ;;
  function_name <~ get function "name" VNone ;;
  function_args <~ get function "arguments" (VStr "{}") ;;
  args <~ match Json.loads py function_args with
          | Raise JSONDecodeError => Ok (VDict [])
          | r => r
          end ;;
  Ok (ToolCall.mk tool_call_id tool_call_type
        (VDict [("name", function_name); ("arguments", args)])).

(** Parse response, convert to ChatResponse: from [response.json()] to
    the returned [chat_response]. *)
Definition chat_response (py : interpreter) (response : Http.Response)
  : result ChatResponse.t :=
  response_data <~ response_json response ;;
  choices <~ get response_data "choices" (VList []) ;;
  if negb (truthy choices) then
    Raise (Exception [Lit "Doubao API returned no choices"])
  else
    choice <~ getitem0 choices ;;
    message <~ get choice "message" (VDict []) ;;
    role <~ get message "role" (VStr "assistant") ;;
    content <~ get message "content" (VStr "") ;;
    tool_calls <~ get message "tool_calls" (VList []) ;;
    tool_calls <~ iter tool_calls ;;
    tool_calls_list <~ for_each (tool_call_obj py) tool_calls ;;
    id <~ get response_data "id" (VStr "") ;;
    usage <~ get response_data "usage" (VDict []) ;;
    Ok (ChatResponse.mk id model role content tool_calls_list usage).

Definition complete : IO ChatResponse.t :=
  response <- client_post post_request ;;
  if negb (Http.status_code response =? 200) then
    raise (Exception [Lit "Doubao API error: ";
                      Fmt (VInt (Http.status_code response));
                      Lit " - ";
                      Fmt (VStr (Http.text response))])
  else
    py <- the_interpreter ;;
    lift (chat_response py response).

End Complete.

(** [DoubaoProvider.parse_tool_calls] *)
Definition parse_tool_calls (self : Provider) (response : ChatResponse.t)
  : list ToolCall.t :=
  ChatResponse.tool_calls response.

(** [DoubaoProvider.get_info] *)
Definition get_info (self : Provider) : ProviderInfo.t :=
  {| ProviderInfo.id := "doubao";
     ProviderInfo.display_name := "Doubao";
     ProviderInfo.credential_env_vars := ["DOUBAO_API_KEY"];
     ProviderInfo.capabilities := ["chat"; "completion"; "tool_calls"];
     ProviderInfo.defaults :=
       [("base_url", VStr "https://ark.cn-beijing.volces.com/api/v3");
        ("default_model", VStr "doubao-1.5-pro-128k")];
     ProviderInfo.config_fields :=
       [[("id", VStr "api_key");
         ("field_type", VStr "secret");
         ("prompt", VStr "Doubao API key");
         ("display_name", VStr "API Key");
         ("env_var", VStr "DOUBAO_API_KEY");
         ("required", VBool true)];
        [("id", VStr "base_url");
         ("field_type", VStr "text");
         ("prompt", VStr "Doubao API base URL");
         ("display_name", VStr "Base URL");
         ("default", VStr "https://ark.cn-beijing.volces.com/api/v3");
         ("required", VBool false)]] |}.

(** [DoubaoProvider.list_models] *)
Definition list_models (self : Provider) : list ModelInfo.t :=
  let models :=
    [ModelInfo.mk "doubao-1.5-pro-128k" "Doubao 1.5 Pro 128k" 128000 4096
       ["chat"; "completion"; "tool_calls"];
     ModelInfo.mk "doubao-1.5-pro-256k" "Doubao 1.5 Pro 256k" 256000 4096
       ["chat"; "completion"; "tool_calls"];
     ModelInfo.mk "doubao-1.5-mini-128k" "Doubao 1.5 Mini 128k" 128000 4096
       ["chat"; "completion"];
     ModelInfo.mk "doubao-1.5-flash-128k" "Doubao 1.5 Flash 128k" 128000 4096
       ["chat"; "completion"];
     ModelInfo.mk "doubao-1.5-flash-256k" "Doubao 1.5 Flash 256k" 256000 4096
       ["chat"; "completion"]] in
  models.

End Doubao.

(** ** Sample inputs *)

(** A substring test, for the wording of error messages. *)
Fixpoint contains (needle hay : string) : bool :=
  String.prefix needle hay
  || match hay with
     | EmptyString => false
     | String _ r => contains needle r
     end.

Definition is_mapping (v : value) : bool :=
  match v with
  | VDict _ => true
  | _ => false
  end.

(** [n] in decimal, and [n] copies of [s]. *)
Definition decimal (n : nat) : string := NilZero.string_of_uint (Nat.to_uint n).

Fixpoint times (n : nat) (s : string) : string :=
  match n with
  | O => EmptyString
  | S n' => s ++ times n' s
  end.

(** An interpreter with CPython's defaults: integer literals of up to
    4300 digits, and a recursion limit of 1000 that leaves the decoder
    room for 990 levels beyond the first. *)
Definition cpython : interpreter :=
  {| nesting := 990;
     int_max_str_digits := 4300;
     int_digits_error := fun n =>
       "Exceeds the limit (4300 digits) for integer string conversion: value has "
       ++ decimal n
       ++ " digits; use sys.set_int_max_str_digits() to increase the limit" |}.

(** An interpreter with room for any document used below and no limit on
    integer literals. *)
Definition roomy : interpreter :=
  {| nesting := 4000;
     int_max_str_digits := 0;
     int_digits_error := fun _ => EmptyString |}.

(** The response to a body of printable ASCII text, in the interpreter
    [cpython]: the body is its text, and [response.json()] is what
    [json.loads] makes of it. *)
Definition reply (status : Z) (body : string) : Http.Response :=
  {| Http.status_code := status;
     Http.text := body;
     Http.json_result := Json.decode cpython body |}.

(** A world with an empty environment whose network answers every
    request with the given status and body. *)
Definition answering (status : Z) (body : string) : World :=
  {| environ := fun _ => None;
     python := cpython;
     network := fun _ => Ok (reply status body) |}.

(** A world where only the variable [name] is set. *)
Definition with_env (name val : string) : World :=
  {| environ := fun k => if String.eqb k name then Some val else None;
     python := cpython;
     network := fun _ => Raise (HTTPError "unreachable") |}.

Definition a_provider : DeepSeek.Provider :=
  {| DeepSeek.config := [("api_key", VStr "sk-1")];
     DeepSeek.api_key := VStr "sk-1";
     DeepSeek.base_url := VStr "https://api.deepseek.com/v1";
     DeepSeek.default_model := VStr "deepseek-chat";
     DeepSeek._name := "deepseek" |}.

(** [{messages: [{role: "user", content: "2+2?"}], tools: []}] *)
Definition simple_request : ChatRequest.t :=
  {| ChatRequest.messages := [ChatMessage.mk (VStr "user") (VStr "2+2?")];
     ChatRequest.tools := Some [];
     ChatRequest.model := VNone;
     ChatRequest.temperature := VNone;
     ChatRequest.max_tokens := VNone |}.

Definition add_tool : ToolSpec.t :=
  ToolSpec.mk (VStr "add") (VStr "Add two numbers")
    (VDict [("type", VStr "object")]).

Definition tool_request : ChatRequest.t :=
  {| ChatRequest.messages := [ChatMessage.mk (VStr "user") (VStr "2+2?")];
     ChatRequest.tools := Some [add_tool];
     ChatRequest.model := VStr "deepseek-r1";
     ChatRequest.temperature := VFloat (Json.float_of_decimal false 7 (-1));
     ChatRequest.max_tokens := VInt 256 |}.

Definition plain_reply : string :=
  q "{'id':'x1','choices':[{'message':{'role':'assistant','content':'4'}}]}".

(** A reply with two tool calls; the arguments of the first are cut off. *)
Definition broken_arguments_reply : string :=
  q ("{'id':'x2','model':'other','choices':[{'message':{'content':'','tool_calls':["
     ++ "{'id':'c1','type':'function','function':{'name':'add','arguments':'{invalid'}},"
     ++ "{'id':'c2','type':'function','function':{'name':'add','arguments':'{\'a\': 2}'}}"
     ++ "]}}],'usage':{'total_tokens':9}}").

(** A reply whose only tool call carries the arguments string [42]. *)
Definition number_arguments_reply : string :=
  q ("{'id':'x3','choices':[{'message':{'tool_calls':["
     ++ "{'id':'c1','type':'function','function':{'name':'add','arguments':'42'}}"
     ++ "]}}]}").

(** A reply whose only tool call is the empty object. *)
Definition bare_tool_call_reply : string :=
  q "{'choices':[{'message':{'tool_calls':[{}]}}]}".

Definition no_choices_reply : string := q "{'id':'x4','choices':[]}".

(** A reply whose only tool call carries the given arguments string
    (which must need no escaping). *)
Definition reply_with_arguments (arguments : string) : string :=
  q "{'id':'x7','choices':[{'message':{'tool_calls':[{'function':{'arguments':'"
  ++ arguments ++ q "'}}]}}]}".

(** Two thousand opening brackets: not JSON, and nested deeper than
    [cpython] has room for. *)
Definition deep_arguments : string := times 2000 "[".

(** An integer literal of 4301 digits: JSON, but longer than [cpython]
    converts. *)
Definition long_arguments : string := times 4301 "9".

Definition b_provider : Qwen.Provider :=
  {| Qwen.config := [("api_key", VStr "sk-1");
                     ("base_url", VStr "https://api.deepseek.com/v1");
                     ("default_model", VStr "deepseek-chat")];
     Qwen.api_key := VStr "sk-1";
     Qwen.base_url := VStr "https://api.deepseek.com/v1";
     Qwen.default_model := VStr "deepseek-chat";
     Qwen._name := "qwen" |}.

Definition c_provider : Doubao.Provider :=
  {| Doubao.config := [("api_key", VStr "sk-1");
                       ("base_url", VStr "https://api.deepseek.com/v1");
                       ("default_model", VStr "deepseek-chat")];
     Doubao.api_key := VStr "sk-1";
     Doubao.base_url := VStr "https://api.deepseek.com/v1";
     Doubao.default_model := VStr "deepseek-chat";
     Doubao._name := "doubao" |}.

(** ** Comparing the outcomes of two providers *)

(** Two exceptions are the same up to the vendor's name when they are
    equal, or are [Exception]s whose messages differ in the vendor's name
    at their head only. *)
Inductive same_error (v1 v2 : string) : exn -> exn -> Prop :=
| same_error_refl e : same_error v1 v2 e e
| same_error_vendor tail rest :
    same_error v1 v2 (Exception (Lit (v1 ++ tail) :: rest))
                     (Exception (Lit (v2 ++ tail) :: rest)).

(** Two calls agree when they return the same response, or both raise
    the same exception up to the vendor's name. *)
Definition agree (v1 v2 : string) (r1 r2 : result ChatResponse.t) : Prop :=
  match r1, r2 with
  | Ok a, Ok b => a = b
  | Raise e1, Raise e2 => same_error v1 v2 e1 e2
  | _, _ => False
  end.

(** ** Projections and further sample inputs *)

(** [function["name"]] of a decoded tool call. *)
Definition function_name (tc : ToolCall.t) : option value :=
  match ToolCall.function tc with
  | VDict f => lookup "name" f
  | _ => None
  end.

(** [entry["function"]["name"]] of a wire object: a tool of the payload
    or a tool call of a reply. *)
Definition wire_function_name (entry : value) : option value :=
  match entry with
  | VDict d =>
      match lookup "function" d with
      | Some (VDict f) => lookup "name" f
      | _ => None
      end
  | _ => None
  end.

(** What is neither a list, a string nor a dict cannot be iterated. *)
Definition not_iterable (v : value) : bool :=
  match v with
  | VNone | VBool _ | VInt _ | VFloat _ => true
  | VStr _ | VList _ | VDict _ => false
  end.

(** A tool-call entry that decodes: an object whose [function] is absent
    or an object, whose [arguments] are absent or a string, and a string
    that [json.loads] either decodes or rejects as not being JSON. *)
Definition wire_entry (py : interpreter) (entry : value) : bool :=
  match entry with
  | VDict d =>
      match dict_get d "function" (VDict []) with
      | VDict f =>
          match dict_get f "arguments" (VStr "{}") with
          | VStr s =>
              match Json.decode py s with
              | Json.Got _ | Json.Failed Json.Syntax => true
              | Json.Failed _ => false
              end
          | _ => false
          end
      | _ => false
      end
  | _ => false
  end.

(** A reply that calls the tool [add] of [tool_request]. *)
Definition echo_reply : string :=
  q ("{'id':'x5','choices':[{'message':{'content':null,'tool_calls':["
     ++ "{'id':'c1','type':'function','function':{'name':'add','arguments':'{}'}}"
     ++ "]}}]}").

(** A reply whose message has [null] under [tool_calls]. *)
Definition null_tool_calls_reply : string :=
  q "{'id':'x6','choices':[{'message':{'content':'hi','tool_calls':null}}]}".

(** Two choices; the second differs from the first. *)
Definition two_choices_reply : string :=
  q ("{'id':'x1','choices':[{'message':{'role':'assistant','content':'4'}},"
     ++ "{'message':{'role':'assistant','content':'5'}}]}").

(** A world with the given variable set whose network answers every
    request with the given status and body. *)
Definition answering_with_env (name val : string) (status : Z) (body : string)
  : World :=
  {| environ := fun k => if String.eqb k name then Some val else None;
     python := cpython;
     network := fun _ => Ok (reply status body) |}.

(** * Properties *)

(** ** The JSON decoder on sample documents *)

Example decode_reply :
  Json.decode cpython
    (q "{'id':'x1','choices':[{'message':{'role':'assistant','content':'4'}}]}")
  = Json.Got
      (Py.VDict
         [("id", Py.VStr "x1");
          ("choices",
           Py.VList
             [Py.VDict
                [("message",
                  Py.VDict [("role", Py.VStr "assistant");
                            ("content", Py.VStr "4")])]])]).
Proof. vm_compute. reflexivity. Qed.

Example decode_invalid py : Json.decode py "{invalid" = Json.Failed Json.Syntax.
Proof. reflexivity. Qed.

Example decode_empty_object py : Json.decode py "{}" = Json.Got (Py.VDict []).
Proof. reflexivity. Qed.

Example decode_int py : Json.decode py "42" = Json.Got (Py.VInt 42).
Proof. reflexivity. Qed.

Example decode_tenth :
  Json.decode cpython "0.1"
  = Json.Got (Py.VFloat (S754_finite false 7205759403792794 (-56))).
Proof. vm_compute. reflexivity. Qed.

Example decode_underflow :
  Json.decode cpython "1e-400" = Json.Got (Py.VFloat (S754_zero false)).
Proof. vm_compute. reflexivity. Qed.

Example decode_nested :
  Json.decode cpython (q " [1, {'a': null, 'a': true}, 'x\u00e9\n', [], -0.0 ] ")
  = Json.Got
      (Py.VList [Py.VInt 1; Py.VDict [("a", Py.VBool true)];
                 Py.VStr (String "x" (String (Json.byte 195)
                            (String (Json.byte 169)
                               (String "010" EmptyString))));
                 Py.VList []; Py.VFloat (S754_zero true)]).
Proof. vm_compute. reflexivity. Qed.

Example decode_trailing_comma : Json.decode cpython "[1,]" = Json.Failed Json.Syntax.
Proof. vm_compute. reflexivity. Qed.

Example decode_extra_data : Json.decode cpython "{} {}" = Json.Failed Json.Syntax.
Proof. vm_compute. reflexivity. Qed.

(** Nesting beyond the interpreter's room is a [RecursionError], also
    where the text is not JSON; a syntax error met before is still a
    [JSONDecodeError]. *)
Example decode_too_deep :
  Json.decode cpython deep_arguments = Json.Failed Json.Recursion /\
  Json.decode roomy deep_arguments = Json.Failed Json.Syntax /\
  Json.decode cpython ("[}" ++ deep_arguments) = Json.Failed Json.Syntax.
Proof. repeat split; vm_compute; reflexivity. Qed.

(** An integer literal beyond the digit limit is a [ValueError]; the
    limit does not apply to floats. *)
Example decode_too_long :
  (exists msg, Json.decode cpython long_arguments = Json.Failed (Json.Digits msg)) /\
  (exists i, Json.decode cpython (times 4300 "9") = Json.Got (Py.VInt i)) /\
  (exists i, Json.decode roomy long_arguments = Json.Got (Py.VInt i)) /\
  (exists f, Json.decode cpython (long_arguments ++ ".5") = Json.Got (Py.VFloat f)).
Proof. repeat split; eexists; vm_compute; reflexivity. Qed.

(** ** One call, one request *)

Lemma DeepSeek_complete_run self request kwargs w log :
  DeepSeek.complete self request kwargs w log =
  (match network w (DeepSeek.post_request self request kwargs) with
   | Raise e => Raise e
   | Ok response =>
       if negb (Http.status_code response =? 200) then
         Raise (Exception [Lit "DeepSeek API error: ";
                           Fmt (VInt (Http.status_code response));
                           Lit " - ";
                           Fmt (VStr (Http.text response))])
       else DeepSeek.chat_response self request kwargs (python w) response
   end,
   (log ++ [DeepSeek.post_request self request kwargs])%list).
Proof.
  unfold DeepSeek.complete, bind, client_post, the_interpreter.
  destruct (network w _) as [response | e]; [| reflexivity].
  destruct (negb _); reflexivity.
Qed.

(** ** The loop over tool calls *)

Lemma for_each_app {A B} (body : A -> result B) (l1 l2 : list A) r1 r2 :
  for_each body l1 = Ok r1 ->
  for_each body l2 = Ok r2 ->
  for_each body (l1 ++ l2)%list = Ok (r1 ++ r2)%list.
Proof.
  revert r1. induction l1 as [| x l1 IH]; intros r1 H1 H2.
  - injection H1 as <-. exact H2.
  - cbn in H1 |- *. destruct (body x) as [y |]; [| discriminate].
    cbn in H1 |- *. destruct (for_each body l1) as [ys |]; [| discriminate].
    injection H1 as <-. rewrite (IH ys eq_refl H2). reflexivity.
Qed.

Lemma for_each_length {A B} (body : A -> result B) (l : list A) r :
  for_each body l = Ok r -> length r = length l.
Proof.
  revert r. induction l as [| x l IH]; intros r H.
  - injection H as <-. reflexivity.
  - cbn in H. destruct (body x); [| discriminate]. cbn in H.
    destruct (for_each body l) as [ys |]; [| discriminate].
    injection H as <-. cbn. now rewrite (IH ys eq_refl).
Qed.

(** A tool-call entry that is an object, with an object (or nothing) under
    [function]: the loop body raises only when [json.loads] raises
    something other than a [JSONDecodeError]. *)
Lemma DeepSeek_tool_call_obj_dict py (d f : dict) :
  dict_get d "function" (VDict []) = VDict f ->
  let built args :=
    ToolCall.mk (dict_get d "id" VNone) (dict_get d "type" VNone)
      (VDict [("name", dict_get f "name" VNone); ("arguments", args)]) in
  DeepSeek.tool_call_obj py (VDict d) =
  match Json.loads py (dict_get f "arguments" (VStr "{}")) with
  | Ok args => Ok (built args)
  | Raise JSONDecodeError => Ok (built (VDict []))
  | Raise e => Raise e
  end.
Proof.
  intros Hf built. unfold DeepSeek.tool_call_obj, get. cbn [rbind].
  rewrite Hf. cbn [rbind].
  destruct (Json.loads _ _) as [args | []]; reflexivity.
Qed.

(** A reply of the expected shape: [response.json()] is an object whose
    [choices] start with an object, whose [message] is an object with a
    list (or nothing) under [tool_calls].  Decoding then depends on the
    tool calls only. *)
Lemma DeepSeek_chat_response_shape self request kwargs py response d c rest m tcs :
  response_json response = Ok (VDict d) ->
  dict_get d "choices" (VList []) = VList (VDict c :: rest) ->
  dict_get c "message" (VDict []) = VDict m ->
  dict_get m "tool_calls" (VList []) = VList tcs ->
  DeepSeek.chat_response self request kwargs py response =
  match for_each (DeepSeek.tool_call_obj py) tcs with
  | Ok tool_calls_list =>
      Ok {| ChatResponse.id := dict_get d "id" (VStr "");
            ChatResponse.model := DeepSeek.model self request kwargs;
            ChatResponse.role := dict_get m "role" (VStr "assistant");
            ChatResponse.content := dict_get m "content" (VStr "");
            ChatResponse.tool_calls := tool_calls_list;
            ChatResponse.usage := dict_get d "usage" (VDict []) |}
  | Raise e => Raise e
  end.
Proof.
  intros Hd Hc Hm Ht.
  unfold DeepSeek.chat_response.
  rewrite Hd. cbn [rbind get]. rewrite Hc. cbn [truthy negb getitem0 rbind get].
  rewrite Hm. cbn [rbind get]. rewrite Ht. cbn [iter rbind].
  destruct (for_each _ tcs); reflexivity.
Qed.

(** ** C1: a malformed arguments string is absorbed *)

(** C1, as the code has it.  Let [response.json()] have the expected
    shape and let its tool call number [length before] be an object whose
    [function.arguments] is a string that [json.loads] rejects with a
    [JSONDecodeError].  Then that entry does not make [complete] raise:
    whenever the other entries decode (to [before'] and [after']),
    [complete] returns a response with the reply's id, role, content and
    usage, the other tool calls as decoded, and the empty mapping as this
    tool call's arguments. *)
Theorem DeepSeek_invalid_arguments_absorbed
    self request kwargs w log response d c rest m before entry after f s
    before' after' :
  network w (DeepSeek.post_request self request kwargs) = Ok response ->
  Http.status_code response = 200 ->
  response_json response = Ok (VDict d) ->
  dict_get d "choices" (VList []) = VList (VDict c :: rest) ->
  dict_get c "message" (VDict []) = VDict m ->
  dict_get m "tool_calls" (VList []) = VList (before ++ VDict entry :: after) ->
  dict_get entry "function" (VDict []) = VDict f ->
  lookup "arguments" f = Some (VStr s) ->
  Json.loads (python w) (VStr s) = Raise JSONDecodeError ->
  for_each (DeepSeek.tool_call_obj (python w)) before = Ok before' ->
  for_each (DeepSeek.tool_call_obj (python w)) after = Ok after' ->
  fst (DeepSeek.complete self request kwargs w log) =
  Ok {| ChatResponse.id := dict_get d "id" (VStr "");
        ChatResponse.model := DeepSeek.model self request kwargs;
        ChatResponse.role := dict_get m "role" (VStr "assistant");
        ChatResponse.content := dict_get m "content" (VStr "");
        ChatResponse.tool_calls :=
          (before' ++
           {| ToolCall.id := dict_get entry "id" VNone;
              ToolCall.type := dict_get entry "type" VNone;
              ToolCall.function :=
                VDict [("name", dict_get f "name" VNone);
                       ("arguments", VDict [])] |} :: after')%list;
        ChatResponse.usage := dict_get d "usage" (VDict []) |}.
Proof.
  intros Hnet Hstatus Hd Hc Hm Ht Hf Ha Hs Hbefore Hafter.
  rewrite DeepSeek_complete_run, Hnet, Hstatus. cbn [fst Z.eqb Pos.eqb negb].
  rewrite (DeepSeek_chat_response_shape _ _ _ _ _ _ _ _ _ _ Hd Hc Hm Ht).
  erewrite for_each_app; [reflexivity | exact Hbefore |].
  cbn [for_each]. rewrite (DeepSeek_tool_call_obj_dict _ _ _ Hf).
  unfold dict_get at 1. rewrite Ha, Hs.
  cbn [rbind]. rewrite Hafter. reflexivity.
Qed.

Lemma DeepSeek_invalid_arguments_absorbed_witness :
  exists r,
    fst (DeepSeek.complete a_provider simple_request []
           (answering 200 broken_arguments_reply) []) = Ok r /\
    map ToolCall.arguments (ChatResponse.tool_calls r) =
      [Some (VDict []); Some (VDict [("a", VInt 2)])] /\
    ChatResponse.content r = VStr "" /\
    ChatResponse.usage r = VDict [("total_tokens", VInt 9)].
Proof.
  eexists. split.
  - eapply (DeepSeek_invalid_arguments_absorbed a_provider simple_request []
              (answering 200 broken_arguments_reply) []
              (reply 200 broken_arguments_reply))
      with (before := []) (s := "{invalid").
    + reflexivity.
    + reflexivity.
    + vm_compute. reflexivity.
    + vm_compute. reflexivity.
    + vm_compute. reflexivity.
    + vm_compute. reflexivity.
    + vm_compute. reflexivity.
    + vm_compute. reflexivity.
    + vm_compute. reflexivity.
    + reflexivity.
    + vm_compute. reflexivity.
  - vm_compute. repeat split.
Defined.

(** C1 as stated fails: a string of two thousand opening brackets is not
    JSON (a decoder with room for it rejects it), yet in an interpreter
    with CPython's default recursion limit [json.loads] raises a
    [RecursionError] on it, which [except json.JSONDecodeError] lets
    through, and [complete] raises. *)
Lemma DeepSeek_deep_arguments_counterexample :
  Json.decode roomy deep_arguments = Json.Failed Json.Syntax /\
  Json.loads cpython (VStr deep_arguments) = Raise RecursionError /\
  fst (DeepSeek.complete a_provider simple_request []
         (answering 200 (reply_with_arguments deep_arguments)) []) =
  Raise RecursionError.
Proof. repeat split; vm_compute; reflexivity. Qed.
(** ** Which exceptions decoding can raise *)

(** The exceptions raised by the interpreter and by decoding JSON: all
    but the [Exception]s the providers raise themselves and the errors of
    the HTTP client. *)
Definition builtin_error (e : exn) : Prop :=
  match e with
  | Exception _ | HTTPError _ => False
  | ValueError _ | JSONDecodeError | AttributeError | TypeError | KeyError
  | IndexError | RecursionError | UnicodeDecodeError => True
  end.

Lemma to_result_raises {A} (a : Json.attempt A) e :
  Json.to_result a = Raise e -> builtin_error e.
Proof.
  destruct a as [x | []]; cbn; intros H; inversion H; exact I.
Qed.

Lemma get_raises o k dflt e : get o k dflt = Raise e -> builtin_error e.
Proof. destruct o; cbn; intros H; inversion H; exact I. Qed.

Lemma getitem0_raises o e : getitem0 o = Raise e -> builtin_error e.
Proof.
  destruct o as [| | | | s | [|] |]; cbn; try destruct (chars s);
    intros H; inversion H; exact I.
Qed.

Lemma iter_raises o e : iter o = Raise e -> builtin_error e.
Proof. destruct o; cbn; intros H; inversion H; exact I. Qed.

Lemma loads_raises py o e : Json.loads py o = Raise e -> builtin_error e.
Proof.
  destruct o as [| | | | s | |]; cbn;
    try (intros H; inversion H; exact I).
  apply to_result_raises.
Qed.

Lemma rbind_raises {A B} (r : result A) (k : A -> result B) e :
  rbind r k = Raise e -> r = Raise e \/ exists a, r = Ok a /\ k a = Raise e.
Proof.
  destruct r as [a |]; cbn; intros H; [right; eauto | left; congruence].
Qed.

Lemma for_each_raises {A B} (body : A -> result B) (l : list A) e :
  for_each body l = Raise e -> exists x, In x l /\ body x = Raise e.
Proof.
  induction l as [| x l IH]; cbn; [discriminate |].
  destruct (body x) as [y |] eqn:Hx; cbn.
  - destruct (for_each body l) as [ys |]; cbn; [discriminate |].
    intros H. destruct (IH H) as (x' & Hin & Hx').
    exists x'. split; [right; exact Hin | exact Hx'].
  - intros H. exists x. split; [left; reflexivity | congruence].
Qed.

Ltac raised H :=
  repeat match type of H with
    | rbind _ _ = Raise _ =>
        let a := fresh "a" in
        let Ha := fresh "Ha" in
        apply rbind_raises in H as [H | (a & Ha & H)]
    end.

Lemma DeepSeek_tool_call_obj_raises py tool_call e :
  DeepSeek.tool_call_obj py tool_call = Raise e -> builtin_error e.
Proof.
  unfold DeepSeek.tool_call_obj. intros H. raised H;
    try (eapply get_raises; eassumption); try discriminate.
  match type of H with
  | match Json.loads py ?a with _ => _ end = _ =>
      destruct (Json.loads py a) as [v | e'] eqn:Hl; [discriminate |]
  end.
  apply loads_raises in Hl. destruct e'; try discriminate; congruence.
Qed.

Lemma DeepSeek_chat_response_raises self request kwargs py response e :
  DeepSeek.chat_response self request kwargs py response = Raise e ->
  builtin_error e \/ e = Exception [Lit "DeepSeek API returned no choices"].
Proof.
  unfold DeepSeek.chat_response. intros H. raised H.
  - left. eapply to_result_raises. exact H.
  - left. eapply get_raises. exact H.
  - destruct (negb (truthy a0)); [right; congruence |].
    left. raised H;
      try (eapply get_raises; eassumption);
      try (eapply getitem0_raises; eassumption);
      try (eapply iter_raises; eassumption);
      try discriminate.
    apply for_each_raises in H as (x & _ & Hx).
    eapply DeepSeek_tool_call_obj_raises. exact Hx.
Qed.

(** ** C2: no choices, no response *)

(** C2.  When [response.json()] is an object whose [choices] are absent
    or the empty list, [complete] raises and returns no response, whatever the
    status; for a 200 reply the error is the one saying that the API
    returned no choices. *)
Theorem DeepSeek_no_choices_is_an_error self request kwargs w log response d :
  network w (DeepSeek.post_request self request kwargs) = Ok response ->
  response_json response = Ok (VDict d) ->
  lookup "choices" d = None \/ lookup "choices" d = Some (VList []) ->
  exists e,
    fst (DeepSeek.complete self request kwargs w log) = Raise e /\
    (Http.status_code response = 200 ->
     e = Exception [Lit "DeepSeek API returned no choices"]).
Proof.
  intros Hnet Hd Hc. rewrite DeepSeek_complete_run, Hnet. cbn [fst].
  destruct (Http.status_code response =? 200) eqn:Hs; cbn [negb].
  - exists (Exception [Lit "DeepSeek API returned no choices"]).
    split; [| reflexivity].
    unfold DeepSeek.chat_response.
    rewrite Hd. cbn [rbind get]. unfold dict_get.
    destruct Hc as [-> | ->]; reflexivity.
  - eexists. split; [reflexivity |].
    intros H. rewrite H in Hs. discriminate.
Qed.

Lemma DeepSeek_no_choices_is_an_error_witness :
  fst (DeepSeek.complete a_provider simple_request []
         (answering 200 no_choices_reply) []) =
  Raise (Exception [Lit "DeepSeek API returned no choices"]).
Proof.
  destruct (DeepSeek_no_choices_is_an_error a_provider simple_request []
              (answering 200 no_choices_reply) []
              (reply 200 no_choices_reply)
              [("id", VStr "x4"); ("choices", VList [])])
    as (e & He & Hmsg).
  - reflexivity.
  - vm_compute. reflexivity.
  - right. reflexivity.
  - rewrite He, (Hmsg eq_refl). reflexivity.
Defined.

(** ** C3: the tools field of the payload *)

(** C3.  [complete] sends one request, whose JSON body is the payload.
    The payload has no [tools] key when the request's tools are absent or
    empty; otherwise [tools] is the list of the tools, each encoded as
    [{type: "function", function: {name, description, parameters}}]. *)
Theorem DeepSeek_tools_encoding self request kwargs w log :
  exists p,
    snd (DeepSeek.complete self request kwargs w log) =
      (log ++ [DeepSeek.post_request self request kwargs])%list /\
    Http.json (DeepSeek.post_request self request kwargs) = VDict p /\
    (ChatRequest.tools request = None \/ ChatRequest.tools request = Some [] ->
     lookup "tools" p = None) /\
    (forall t ts,
       ChatRequest.tools request = Some (t :: ts) ->
       lookup "tools" p =
       Some (VList
               (map (fun tool =>
                       VDict [("type", VStr "function");
                              ("function",
                               VDict [("name", ToolSpec.name tool);
                                      ("description", ToolSpec.description tool);
                                      ("parameters", ToolSpec.parameters tool)])])
                    (t :: ts)))).
Proof.
  exists (DeepSeek.payload self request kwargs).
  split; [rewrite DeepSeek_complete_run; reflexivity |].
  split; [reflexivity |].
  unfold DeepSeek.payload, DeepSeek.deepseek_tools, DeepSeek.tools.
  split.
  - intros [-> | ->]; reflexivity.
  - intros t ts ->. reflexivity.
Qed.

Lemma DeepSeek_tools_encoding_witness :
  lookup "tools" (DeepSeek.payload a_provider simple_request []) = None /\
  lookup "tools" (DeepSeek.payload a_provider tool_request []) =
  Some (VList [VDict [("type", VStr "function");
                      ("function",
                       VDict [("name", VStr "add");
                              ("description", VStr "Add two numbers");
                              ("parameters", VDict [("type", VStr "object")])])]]).
Proof.
  split.
  - destruct (DeepSeek_tools_encoding a_provider simple_request []
                (answering 200 plain_reply) []) as (p & _ & Hp & Hnone & _).
    injection Hp as <-. apply Hnone. right. reflexivity.
  - destruct (DeepSeek_tools_encoding a_provider tool_request []
                (answering 200 plain_reply) []) as (p & _ & Hp & _ & Hsome).
    injection Hp as <-. apply (Hsome add_tool []). reflexivity.
Defined.

(** ** C4: resolving the API key *)

(** C4.  Construction sends nothing over the network.  The API key is the
    configuration's [api_key] when that is a non-empty (truthy) value;
    otherwise the value of DEEPSEEK_API_KEY when that is set and not
    empty; otherwise construction raises a [ValueError] whose message
    names DEEPSEEK_API_KEY. *)
Theorem DeepSeek_api_key_resolution (config : dict) (w : World)
    (log : list Http.Request) :
  let explicit := dict_get config "api_key" VNone in
  let from_env :=
    match environ w "DEEPSEEK_API_KEY" with
    | Some s => VStr s
    | None => VNone
    end in
  snd (DeepSeek.__init__ config w log) = log /\
  (truthy explicit = true ->
   exists self, fst (DeepSeek.__init__ config w log) = Ok self /\
                DeepSeek.api_key self = explicit) /\
  (truthy explicit = false -> truthy from_env = true ->
   exists self, fst (DeepSeek.__init__ config w log) = Ok self /\
                DeepSeek.api_key self = from_env) /\
  (truthy explicit = false -> truthy from_env = false ->
   exists msg, fst (DeepSeek.__init__ config w log) = Raise (ValueError msg) /\
               contains "DEEPSEEK_API_KEY" msg = true).
Proof.
  cbv zeta.
  unfold DeepSeek.__init__, DeepSeek._get_api_key, bind, os_environ_get, ret, raise.
  destruct (truthy (dict_get config "api_key" VNone)) eqn:He.
  - cbn [fst snd]. split; [reflexivity |].
    repeat split; try discriminate. intros _. eexists. split; reflexivity.
  - cbv beta iota.
    destruct (truthy match environ w "DEEPSEEK_API_KEY" with
                     | Some s => VStr s
                     | None => VNone
                     end) eqn:Hv;
      cbn [fst snd]; (split; [reflexivity |]); repeat split; try discriminate;
      intros _ _; eexists; split; reflexivity.
Qed.

Lemma DeepSeek_api_key_resolution_witness :
  (exists self,
     fst (DeepSeek.__init__ [("api_key", VStr "sk-1")]
            (with_env "DEEPSEEK_API_KEY" "sk-2") []) = Ok self /\
     DeepSeek.api_key self = VStr "sk-1") /\
  (exists self,
     fst (DeepSeek.__init__ [("api_key", VStr "")]
            (with_env "DEEPSEEK_API_KEY" "sk-2") []) = Ok self /\
     DeepSeek.api_key self = VStr "sk-2") /\
  (exists msg,
     fst (DeepSeek.__init__ [] (with_env "DEEPSEEK_API_KEY" "") []) =
       Raise (ValueError msg) /\
     contains "DEEPSEEK_API_KEY" msg = true).
Proof.
  split; [| split].
  - exact (proj1 (proj2 (DeepSeek_api_key_resolution [("api_key", VStr "sk-1")]
                           (with_env "DEEPSEEK_API_KEY" "sk-2") [])) eq_refl).
  - exact (proj1 (proj2 (proj2 (DeepSeek_api_key_resolution [("api_key", VStr "")]
                                  (with_env "DEEPSEEK_API_KEY" "sk-2") [])))
             eq_refl eq_refl).
  - exact (proj2 (proj2 (proj2 (DeepSeek_api_key_resolution []
                                  (with_env "DEEPSEEK_API_KEY" "") [])))
             eq_refl eq_refl).
Defined.

(** The same resolution in the two sibling providers. *)
Lemma Qwen_api_key_resolution (config : dict) (w : World)
    (log : list Http.Request) :
  Qwen.__init__ config w log =
  (let explicit := dict_get config "api_key" VNone in
   let from_env :=
     match environ w "QWEN_API_KEY" with
     | Some s => VStr s
     | None => VNone
     end in
   let built k :=
     Ok {| Qwen.config := config;
           Qwen.api_key := k;
           Qwen.base_url := dict_get config "base_url" (VStr "https://api.tongyi.ai/v1");
           Qwen.default_model :=
             dict_get config "default_model" (VStr "qwen2.5-7b-instruct");
           Qwen._name := "qwen" |} in
   if truthy explicit then built explicit
   else if truthy from_env then built from_env
   else Raise (ValueError
          "Qwen API key not found in config or environment variable QWEN_API_KEY"),
   log).
Proof.
  cbv zeta.
  unfold Qwen.__init__, Qwen._get_api_key, bind, os_environ_get, ret, raise.
  destruct (truthy (dict_get config "api_key" VNone)); [reflexivity |].
  cbv beta iota. destruct (truthy _); reflexivity.
Qed.

Lemma Doubao_api_key_resolution (config : dict) (w : World)
    (log : list Http.Request) :
  Doubao.__init__ config w log =
  (let explicit := dict_get config "api_key" VNone in
   let from_env :=
     match environ w "DOUBAO_API_KEY" with
     | Some s => VStr s
     | None => VNone
     end in
   let built k :=
     Ok {| Doubao.config := config;
           Doubao.api_key := k;
           Doubao.base_url :=
             dict_get config "base_url" (VStr "https://ark.cn-beijing.volces.com/api/v3");
           Doubao.default_model :=
             dict_get config "default_model" (VStr "doubao-1.5-pro-128k");
           Doubao._name := "doubao" |} in
   if truthy explicit then built explicit
   else if truthy from_env then built from_env
   else Raise (ValueError
          "Doubao API key not found in config or environment variable DOUBAO_API_KEY"),
   log).
Proof.
  cbv zeta.
  unfold Doubao.__init__, Doubao._get_api_key, bind, os_environ_get, ret, raise.
  destruct (truthy (dict_get config "api_key" VNone)); [reflexivity |].
  cbv beta iota. destruct (truthy _); reflexivity.
Qed.

(** The sample providers are what the constructors build. *)
Example a_provider_built :
  fst (DeepSeek.__init__ [("api_key", VStr "sk-1")] (answering 200 "") []) =
  Ok a_provider.
Proof. reflexivity. Qed.

Example b_provider_built :
  fst (Qwen.__init__ (Qwen.config b_provider) (answering 200 "") []) =
  Ok b_provider.
Proof. reflexivity. Qed.

Example c_provider_built :
  fst (Doubao.__init__ (Doubao.config c_provider) (answering 200 "") []) =
  Ok c_provider.
Proof. reflexivity. Qed.

(** ** C6: temperature and max_tokens in the payload *)

(** C6, as the code has it.  The payload sent always has the keys
    [temperature] and [max_tokens].  Each holds the override when the
    overrides carry the key and the request's value otherwise; so, with no
    override and nothing in the request, the key is present with the
    value [None]. *)
Theorem DeepSeek_sampling_fields_forwarded self request kwargs :
  exists p,
    Http.json (DeepSeek.post_request self request kwargs) = VDict p /\
    lookup "temperature" p =
      Some match lookup "temperature" kwargs with
           | Some v => v
           | None => ChatRequest.temperature request
           end /\
    lookup "max_tokens" p =
      Some match lookup "max_tokens" kwargs with
           | Some v => v
           | None => ChatRequest.max_tokens request
           end.
Proof.
  exists (DeepSeek.payload self request kwargs). split; [reflexivity |].
  unfold DeepSeek.payload.
  destruct (nonempty _); [destruct (DeepSeek.deepseek_tools _) |];
    split; reflexivity.
Qed.

(** C6 as stated fails: with no override and a request that sets neither
    field, both keys are in the payload, holding [None]. *)
Lemma DeepSeek_absent_sampling_fields_counterexample :
  (lookup "temperature" ([] : dict) = None /\
   lookup "max_tokens" ([] : dict) = None /\
   ChatRequest.temperature simple_request = VNone /\
   ChatRequest.max_tokens simple_request = VNone) /\
  lookup "temperature" (DeepSeek.payload a_provider simple_request []) = Some VNone /\
  lookup "max_tokens" (DeepSeek.payload a_provider simple_request []) = Some VNone.
Proof. repeat split. Qed.

(** ** C7: the status check *)

(** C7, as the code has it.  When the network answers, [complete] raises
    the API error that carries the status code and the body text exactly
    when the status is not 200; a reply with status 200 goes on to
    decoding. *)
Theorem DeepSeek_status_check self request kwargs w log response :
  network w (DeepSeek.post_request self request kwargs) = Ok response ->
  (fst (DeepSeek.complete self request kwargs w log) =
     Raise (Exception [Lit "DeepSeek API error: ";
                       Fmt (VInt (Http.status_code response));
                       Lit " - ";
                       Fmt (VStr (Http.text response))])
   <-> Http.status_code response <> 200) /\
  (Http.status_code response = 200 ->
   fst (DeepSeek.complete self request kwargs w log) =
     DeepSeek.chat_response self request kwargs (python w) response).
Proof.
  intros Hnet. rewrite DeepSeek_complete_run, Hnet. cbn [fst].
  destruct (Z.eqb_spec (Http.status_code response) 200) as [Heq | Hne];
    cbn [negb].
  - split; [| reflexivity]. split; [| contradiction].
    intros H. apply DeepSeek_chat_response_raises in H as [H | H].
    + destruct H.
    + discriminate.
  - split; [| contradiction]. split; [intros _; exact Hne | reflexivity].
Qed.

Lemma DeepSeek_status_check_witness :
  fst (DeepSeek.complete a_provider simple_request []
         (answering 503 "overloaded") []) =
    Raise (Exception [Lit "DeepSeek API error: "; Fmt (VInt 503); Lit " - ";
                      Fmt (VStr "overloaded")]) /\
  fst (DeepSeek.complete a_provider simple_request []
         (answering 200 plain_reply) []) =
    DeepSeek.chat_response a_provider simple_request [] cpython
      (reply 200 plain_reply).
Proof.
  split.
  - apply (proj1 (DeepSeek_status_check a_provider simple_request []
                    (answering 503 "overloaded") []
                    (reply 503 "overloaded") eq_refl)).
    discriminate.
  - apply (proj2 (DeepSeek_status_check a_provider simple_request []
                    (answering 200 plain_reply) []
                    (reply 200 plain_reply) eq_refl)).
    reflexivity.
Defined.

(** C7 as stated fails: 201 is a 2xx status, and the reply is turned into
    the API error instead of being decoded. *)
Lemma DeepSeek_status_201_counterexample :
  (200 <= 201 < 300) /\
  fst (DeepSeek.complete a_provider simple_request []
         (answering 201 plain_reply) []) =
  Raise (Exception [Lit "DeepSeek API error: "; Fmt (VInt 201); Lit " - ";
                    Fmt (VStr plain_reply)]).
Proof. split; [lia | reflexivity]. Qed.

(** ** C8: a plain reply, and the model of every response *)

(** C8.  The reply
    [{"id":"x1","choices":[{"message":{"role":"assistant","content":"4"}}]}]
    (a 200 response whose [json()] is what [json.loads] makes of this
    text, in an interpreter with room for its four levels) decodes to a
    response with content ["4"], no tool calls and the empty usage
    mapping; and whatever the reply, a response that [complete] returns
    carries the model resolved from the overrides, the request and the
    provider's default. *)
Theorem DeepSeek_plain_reply_and_model :
  (forall self request kwargs w log response py,
     network w (DeepSeek.post_request self request kwargs) = Ok response ->
     Http.status_code response = 200 ->
     (3 <= nesting py)%nat ->
     Http.json_result response = Json.decode py plain_reply ->
     exists r,
       fst (DeepSeek.complete self request kwargs w log) = Ok r /\
       ChatResponse.content r = VStr "4" /\
       ChatResponse.tool_calls r = [] /\
       ChatResponse.usage r = VDict []) /\
  (forall self request kwargs w log r,
     fst (DeepSeek.complete self request kwargs w log) = Ok r ->
     ChatResponse.model r =
       match lookup "model" kwargs with
       | Some m => m
       | None =>
           if truthy (ChatRequest.model request) then ChatRequest.model request
           else DeepSeek.default_model self
       end).
Proof.
  split.
  - intros self request kwargs w log response py Hnet Hstatus Hroom Hjson.
    rewrite DeepSeek_complete_run, Hnet, Hstatus. cbn [fst Z.eqb Pos.eqb negb].
    erewrite DeepSeek_chat_response_shape;
      [| unfold response_json; rewrite Hjson;
         destruct py as [[| [| [| n]]] limit msg]; cbn [nesting] in Hroom;
         try lia; reflexivity
       | reflexivity | reflexivity | reflexivity ].
    cbn [for_each]. eexists. split; [reflexivity |]. repeat split.
  - intros self request kwargs w log r.
    rewrite DeepSeek_complete_run. cbn [fst].
    destruct (network w _) as [response |]; [| discriminate].
    destruct (negb _); [discriminate |].
    unfold DeepSeek.chat_response. intros H.
    repeat match type of H with
      | rbind ?c _ = Ok _ => destruct c; cbn [rbind] in H; [| discriminate]
      | (if ?b then _ else _) = Ok _ => destruct b; [discriminate |]
      end.
    injection H as <-. reflexivity.
Qed.

Lemma DeepSeek_plain_reply_and_model_witness :
  (exists r,
     fst (DeepSeek.complete a_provider tool_request []
            (answering 200 plain_reply) []) = Ok r /\
     ChatResponse.content r = VStr "4" /\
     ChatResponse.tool_calls r = [] /\
     ChatResponse.usage r = VDict []) /\
  (exists r,
     fst (DeepSeek.complete a_provider tool_request [("model", VStr "deepseek-coder")]
            (answering 200 broken_arguments_reply) []) = Ok r /\
     ChatResponse.model r = VStr "deepseek-coder").
Proof.
  split.
  - apply (proj1 DeepSeek_plain_reply_and_model a_provider tool_request []
             (answering 200 plain_reply) [] (reply 200 plain_reply) cpython).
    + reflexivity.
    + reflexivity.
    + cbn. lia.
    + reflexivity.
  - eexists. split; [vm_compute; reflexivity |].
    apply (proj2 DeepSeek_plain_reply_and_model a_provider tool_request
             [("model", VStr "deepseek-coder")]
             (answering 200 broken_arguments_reply) []).
    vm_compute. reflexivity.
Defined.

(** ** C5 and C10: the fields of a decoded tool call *)

Lemma for_each_In {A B} (body : A -> result B) (l : list A) r y :
  for_each body l = Ok r -> In y r -> exists x, In x l /\ body x = Ok y.
Proof.
  revert r. induction l as [| x l IH]; intros r H Hy.
  - injection H as <-. destruct Hy.
  - cbn in H. destruct (body x) as [y0 |] eqn:Hx; [| discriminate]. cbn in H.
    destruct (for_each body l) as [ys |]; [| discriminate].
    injection H as <-. destruct Hy as [<- | Hy].
    + exists x. split; [left; reflexivity | exact Hx].
    + destruct (IH ys eq_refl Hy) as (x' & Hin & Hx').
      exists x'. split; [right; exact Hin | exact Hx'].
Qed.

Lemma for_each_Forall2 {A B} (body : A -> result B) (l : list A) r :
  for_each body l = Ok r <-> Forall2 (fun x y => body x = Ok y) l r.
Proof.
  revert r. induction l as [| x l IH]; intros r; split.
  - intros H. injection H as <-. constructor.
  - intros H. inversion H. reflexivity.
  - cbn. destruct (body x) as [y |] eqn:Hx; [| discriminate]. cbn.
    destruct (for_each body l) as [ys |]; [| discriminate].
    intros H. injection H as <-. constructor; [exact Hx |].
    apply IH. reflexivity.
  - intros H. inversion H as [| x' y l' ys Hx Hrest]; subst. cbn.
    rewrite Hx. cbn. apply IH in Hrest. rewrite Hrest. reflexivity.
Qed.

(** A response is returned only for a 200 reply that [response.json()]
    parses to an object with an object as first choice and an object as
    message; its tool calls are the loop's output on the entries of the
    message's [tool_calls]. *)
Lemma DeepSeek_complete_returns self request kwargs w log r :
  fst (DeepSeek.complete self request kwargs w log) = Ok r ->
  exists response d choice m entries,
    network w (DeepSeek.post_request self request kwargs) = Ok response /\
    Http.status_code response = 200 /\
    response_json response = Ok (VDict d) /\
    getitem0 (dict_get d "choices" (VList [])) = Ok (VDict choice) /\
    dict_get choice "message" (VDict []) = VDict m /\
    iter (dict_get m "tool_calls" (VList [])) = Ok entries /\
    for_each (DeepSeek.tool_call_obj (python w)) entries =
      Ok (ChatResponse.tool_calls r).
Proof.
  rewrite DeepSeek_complete_run. cbn [fst].
  destruct (network w _) as [response |] eqn:Hnet; [| discriminate].
  destruct (Z.eqb_spec (Http.status_code response) 200) as [Hs | Hs];
    cbn [negb]; [| discriminate].
  unfold DeepSeek.chat_response.
  destruct (response_json response) as [data |] eqn:Hd; cbn [rbind];
    [| discriminate].
  destruct data as [| | | | | | d]; try discriminate. cbn [get rbind].
  destruct (negb (truthy (dict_get d "choices" (VList [])))); [discriminate |].
  destruct (getitem0 (dict_get d "choices" (VList []))) as [choice |] eqn:Hc;
    cbn [rbind]; [| discriminate].
  destruct choice as [| | | | | | c]; try discriminate. cbn [get rbind].
  destruct (dict_get c "message" (VDict [])) as [| | | | | | m] eqn:Hm;
    try discriminate.
  cbn [get rbind].
  destruct (iter (dict_get m "tool_calls" (VList []))) as [entries |] eqn:Hi;
    cbn [rbind]; [| discriminate].
  destruct (for_each _ entries) as [tl |] eqn:Hl; cbn [rbind]; [| discriminate].
  intros H. injection H as <-.
  exists response, d, c, m, entries. repeat split; assumption.
Qed.

(** What a turn of the loop does with an entry that is an object with an
    object (or nothing) under [function] and a string under [arguments]. *)
Lemma DeepSeek_tool_call_obj_string py d f s :
  dict_get d "function" (VDict []) = VDict f ->
  dict_get f "arguments" (VStr "{}") = VStr s ->
  let built args :=
    ToolCall.mk (dict_get d "id" VNone) (dict_get d "type" VNone)
      (VDict [("name", dict_get f "name" VNone); ("arguments", args)]) in
  DeepSeek.tool_call_obj py (VDict d) =
  match Json.decode py s with
  | Json.Got v => Ok (built v)
  | Json.Failed Json.Syntax => Ok (built (VDict []))
  | Json.Failed fl => Raise (Json.exn_of fl)
  end.
Proof.
  intros Hf Ha built. rewrite (DeepSeek_tool_call_obj_dict _ _ _ Hf). cbv zeta.
  rewrite Ha. unfold Json.loads.
  destruct (Json.decode py s) as [v | []]; reflexivity.
Qed.

(** What a successful turn of the loop has built. *)
Lemma DeepSeek_tool_call_obj_ok py entry tc :
  DeepSeek.tool_call_obj py entry = Ok tc ->
  exists d f s,
    entry = VDict d /\
    dict_get d "function" (VDict []) = VDict f /\
    dict_get f "arguments" (VStr "{}") = VStr s /\
    ToolCall.id tc = dict_get d "id" VNone /\
    ToolCall.type tc = dict_get d "type" VNone /\
    ((exists v, Json.decode py s = Json.Got v /\
                ToolCall.function tc =
                VDict [("name", dict_get f "name" VNone); ("arguments", v)]) \/
     (Json.decode py s = Json.Failed Json.Syntax /\
      ToolCall.function tc =
      VDict [("name", dict_get f "name" VNone); ("arguments", VDict [])])).
Proof.
  destruct entry as [| | | | | | d]; try discriminate.
  destruct (dict_get d "function" (VDict [])) as [| | | | | | f] eqn:Hf;
    try (unfold DeepSeek.tool_call_obj, get; cbn [rbind]; rewrite Hf; discriminate).
  destruct (dict_get f "arguments" (VStr "{}")) as [| | | | s | |] eqn:Ha;
    try (rewrite (DeepSeek_tool_call_obj_dict _ _ _ Hf); cbv zeta; rewrite Ha;
         discriminate).
  rewrite (DeepSeek_tool_call_obj_string _ _ _ _ Hf Ha). cbv zeta.
  intros H. exists d, f, s.
  split; [reflexivity |]. split; [exact Hf |]. split; [exact Ha |].
  destruct (Json.decode py s) as [v | []]; try discriminate H;
    injection H as <-; cbn; (split; [reflexivity |]); (split; [reflexivity |]).
  - left. exists v. split; reflexivity.
  - right. split; reflexivity.
Qed.

(** C5, as the code has it.  A response that [complete] returns comes
    from a reply whose [tool_calls] entries are objects, decoded one for
    one: the [function] field of each tool call is a dict of [name] and
    [arguments], where [arguments] is what [json.loads] returns for the
    entry's arguments string (["{}"] when the entry has none), or the
    empty mapping when [json.loads] raises a [JSONDecodeError].  So for
    an entry with arguments string [s] the loop body returns a tool call
    with these arguments when [json.loads] returns or raises a
    [JSONDecodeError], and raises what [json.loads] raises otherwise; the
    decoded arguments are a mapping exactly when [s] is rejected as not
    being JSON or encodes a JSON object. *)
Theorem DeepSeek_arguments_parsed :
  (forall self request kwargs w log r,
     fst (DeepSeek.complete self request kwargs w log) = Ok r ->
     exists response d choice m entries,
       network w (DeepSeek.post_request self request kwargs) = Ok response /\
       response_json response = Ok (VDict d) /\
       getitem0 (dict_get d "choices" (VList [])) = Ok (VDict choice) /\
       dict_get choice "message" (VDict []) = VDict m /\
       iter (dict_get m "tool_calls" (VList [])) = Ok entries /\
       Forall2
         (fun entry tc =>
            exists e f s,
              entry = VDict e /\
              dict_get e "function" (VDict []) = VDict f /\
              dict_get f "arguments" (VStr "{}") = VStr s /\
              ((exists v, Json.decode (python w) s = Json.Got v /\
                          ToolCall.function tc =
                          VDict [("name", dict_get f "name" VNone);
                                 ("arguments", v)]) \/
               (Json.decode (python w) s = Json.Failed Json.Syntax /\
                ToolCall.function tc =
                VDict [("name", dict_get f "name" VNone);
                       ("arguments", VDict [])])))
         entries (ChatResponse.tool_calls r)) /\
  (forall py d f s,
     dict_get d "function" (VDict []) = VDict f ->
     lookup "arguments" f = Some (VStr s) ->
     match Json.decode py s with
     | Json.Got v =>
         exists tc, DeepSeek.tool_call_obj py (VDict d) = Ok tc /\
                    ToolCall.arguments tc = Some v
     | Json.Failed Json.Syntax =>
         exists tc, DeepSeek.tool_call_obj py (VDict d) = Ok tc /\
                    ToolCall.arguments tc = Some (VDict [])
     | Json.Failed fl =>
         DeepSeek.tool_call_obj py (VDict d) = Raise (Json.exn_of fl)
     end) /\
  (forall py d f s tc,
     dict_get d "function" (VDict []) = VDict f ->
     lookup "arguments" f = Some (VStr s) ->
     DeepSeek.tool_call_obj py (VDict d) = Ok tc ->
     exists args,
       ToolCall.arguments tc = Some args /\
       (is_mapping args = true <->
        Json.decode py s = Json.Failed Json.Syntax \/
        exists m, Json.decode py s = Json.Got (VDict m))).
Proof.
  split; [| split].
  - intros self request kwargs w log r Hr.
    destruct (DeepSeek_complete_returns _ _ _ _ _ _ Hr)
      as (response & d & choice & m & entries & Hnet & _ & Hd & Hc & Hm & Hi & Hl).
    exists response, d, choice, m, entries.
    repeat (split; [assumption |]).
    apply for_each_Forall2 in Hl.
    eapply Forall2_impl; [| exact Hl]. cbv beta. intros entry tc Hentry.
    destruct (DeepSeek_tool_call_obj_ok _ _ _ Hentry)
      as (e & f & s & -> & Hf & Ha & _ & _ & Hargs).
    exists e, f, s. repeat (split; [first [reflexivity | assumption] |]).
    exact Hargs.
  - intros py d f s Hf Ha.
    assert (Ha' : dict_get f "arguments" (VStr "{}") = VStr s)
      by (unfold dict_get; rewrite Ha; reflexivity).
    rewrite (DeepSeek_tool_call_obj_string _ _ _ _ Hf Ha'). cbv zeta.
    destruct (Json.decode py s) as [v | []]; try reflexivity;
      eexists; split; reflexivity.
  - intros py d f s tc Hf Ha.
    assert (Ha' : dict_get f "arguments" (VStr "{}") = VStr s)
      by (unfold dict_get; rewrite Ha; reflexivity).
    rewrite (DeepSeek_tool_call_obj_string _ _ _ _ Hf Ha'). cbv zeta.
    destruct (Json.decode py s) as [v | []]; try discriminate;
      intros H; injection H as <-; eexists; (split; [reflexivity |]).
    + split.
      * intros Hv. right. destruct v; try discriminate. eauto.
      * intros [H | (m & H)]; [discriminate |]. injection H as ->. reflexivity.
    + split; [intros _; left |]; reflexivity.
Qed.

Lemma DeepSeek_arguments_parsed_witness :
  (exists tc,
     DeepSeek.tool_call_obj cpython
       (VDict [("id", VStr "c2");
               ("function", VDict [("name", VStr "add");
                                   ("arguments", VStr (q "{'a': 2}"))])]) = Ok tc /\
     ToolCall.arguments tc = Some (VDict [("a", VInt 2)])) /\
  DeepSeek.tool_call_obj cpython
    (VDict [("function", VDict [("arguments", VStr long_arguments)])]) =
  Raise (ValueError (int_digits_error cpython 4301)).
Proof.
  split.
  - exact (proj1 (proj2 DeepSeek_arguments_parsed) cpython
             [("id", VStr "c2");
              ("function", VDict [("name", VStr "add");
                                  ("arguments", VStr (q "{'a': 2}"))])]
             [("name", VStr "add"); ("arguments", VStr (q "{'a': 2}"))]
             (q "{'a': 2}") eq_refl eq_refl).
  - generalize (proj1 (proj2 DeepSeek_arguments_parsed) cpython
                  [("function", VDict [("arguments", VStr long_arguments)])]
                  [("arguments", VStr long_arguments)]
                  long_arguments eq_refl eq_refl).
    assert (Hl : Json.decode cpython long_arguments =
                 Json.Failed (Json.Digits (int_digits_error cpython 4301)))
      by (vm_compute; reflexivity).
    rewrite Hl. intros H. exact H.
Defined.

(** C5 as stated fails: the arguments string [42] is valid JSON, and the
    decoded arguments are the number 42, not a mapping. *)
Lemma DeepSeek_number_arguments_counterexample :
  exists r tc,
    fst (DeepSeek.complete a_provider simple_request []
           (answering 200 number_arguments_reply) []) = Ok r /\
    ChatResponse.tool_calls r = [tc] /\
    ToolCall.arguments tc = Some (VInt 42) /\
    is_mapping (VInt 42) = false.
Proof.
  eexists. eexists. split; [vm_compute; reflexivity |].
  split; [reflexivity |]. split; reflexivity.
Qed.

(** C10.  Decoding a tool-call entry that is an object fails only on a
    value that is present: a [function] that is not an object, or
    [arguments] on which [json.loads] raises something other than a
    [JSONDecodeError] (a [TypeError] when they are not a string); never on
    an absent key.  In the decoded tool call an absent [id], [type] or
    [function.name] is [None], and absent [function.arguments] are the
    empty mapping; the entry [{}] decodes to a tool call of these four
    defaults.  The response's own [id], when absent, is the empty string
    instead. *)
Theorem DeepSeek_missing_keys :
  (forall py d e,
     DeepSeek.tool_call_obj py (VDict d) = Raise e ->
     (exists v, lookup "function" d = Some v /\ is_mapping v = false) \/
     (exists f a, lookup "function" d = Some (VDict f) /\
                  lookup "arguments" f = Some a /\
                  Json.loads py a = Raise e /\
                  e <> JSONDecodeError)) /\
  (forall py d tc,
     DeepSeek.tool_call_obj py (VDict d) = Ok tc ->
     (lookup "id" d = None -> ToolCall.id tc = VNone) /\
     (lookup "type" d = None -> ToolCall.type tc = VNone) /\
     exists f name args,
       dict_get d "function" (VDict []) = VDict f /\
       ToolCall.function tc = VDict [("name", name); ("arguments", args)] /\
       (lookup "name" f = None -> name = VNone) /\
       (lookup "arguments" f = None -> args = VDict [])) /\
  (forall py,
     DeepSeek.tool_call_obj py (VDict []) =
     Ok (ToolCall.mk VNone VNone (VDict [("name", VNone); ("arguments", VDict [])]))) /\
  (forall self request kwargs w log response d r,
     network w (DeepSeek.post_request self request kwargs) = Ok response ->
     response_json response = Ok (VDict d) ->
     lookup "id" d = None ->
     fst (DeepSeek.complete self request kwargs w log) = Ok r ->
     ChatResponse.id r = VStr "").
Proof.
  split; [| split; [| split]].
  - intros py d e H.
    destruct (lookup "function" d) as [v |] eqn:Hl.
    + destruct (is_mapping v) eqn:Hv; [| left; eauto].
      destruct v as [| | | | | | f]; try discriminate. right.
      assert (Hf : dict_get d "function" (VDict []) = VDict f)
        by (unfold dict_get; rewrite Hl; reflexivity).
      rewrite (DeepSeek_tool_call_obj_dict _ _ _ Hf) in H. cbv zeta in H.
      unfold dict_get at 1 in H.
      destruct (lookup "arguments" f) as [a |] eqn:Ha.
      * exists f, a. split; [reflexivity |]. split; [exact Ha |].
        destruct (Json.loads py a) as [v | e'] eqn:Hloads; [discriminate |].
        destruct e'; try discriminate H; injection H as <-;
          (split; [reflexivity | discriminate]).
      * unfold Json.loads in H. rewrite decode_empty_object in H. discriminate.
    + assert (Hf : dict_get d "function" (VDict []) = VDict [])
        by (unfold dict_get; rewrite Hl; reflexivity).
      rewrite (DeepSeek_tool_call_obj_dict _ _ _ Hf) in H. cbv zeta in H.
      unfold dict_get at 1, Json.loads in H. cbn [lookup] in H.
      rewrite decode_empty_object in H. discriminate.
  - intros py d tc H.
    destruct (DeepSeek_tool_call_obj_ok _ _ _ H)
      as (d' & f & s & Hd & Hf & Ha & Hid & Htype & Hargs).
    injection Hd as <-.
    split; [intros Hl; rewrite Hid; unfold dict_get; rewrite Hl; reflexivity |].
    split; [intros Hl; rewrite Htype; unfold dict_get; rewrite Hl; reflexivity |].
    destruct Hargs as [(v & Hs & Hfn) | (Hs & Hfn)].
    + exists f, (dict_get f "name" VNone), v.
      split; [exact Hf |]. split; [exact Hfn |].
      split; [intros Hl; unfold dict_get; rewrite Hl; reflexivity |].
      intros Hl. unfold dict_get in Ha. rewrite Hl in Ha. injection Ha as <-.
      rewrite decode_empty_object in Hs. injection Hs as <-. reflexivity.
    + exists f, (dict_get f "name" VNone), (VDict []).
      split; [exact Hf |]. split; [exact Hfn |].
      split; [intros Hl; unfold dict_get; rewrite Hl; reflexivity |].
      reflexivity.
  - intros py. reflexivity.
  - intros self request kwargs w log response d r Hnet Hd Hid Hr.
    destruct (DeepSeek_complete_returns _ _ _ _ _ _ Hr)
      as (response' & d' & choice & m & entries & Hnet' & Hs & Hd' & Hc & Hm & Hi & Hl).
    rewrite Hnet in Hnet'. injection Hnet' as <-.
    rewrite Hd in Hd'. injection Hd' as <-.
    rewrite DeepSeek_complete_run, Hnet, Hs in Hr. cbn [fst Z.eqb Pos.eqb negb] in Hr.
    unfold DeepSeek.chat_response in Hr.
    rewrite Hd in Hr. cbn [rbind get] in Hr.
    destruct (negb (truthy (dict_get d "choices" (VList [])))); [discriminate Hr |].
    rewrite Hc in Hr. cbn [rbind get] in Hr. rewrite Hm in Hr. cbn [rbind get] in Hr.
    rewrite Hi in Hr. cbn [rbind] in Hr. rewrite Hl in Hr. cbn [rbind] in Hr.
    injection Hr as <-. cbn. unfold dict_get. rewrite Hid. reflexivity.
Qed.

Lemma DeepSeek_missing_keys_witness :
  exists r,
    fst (DeepSeek.complete a_provider simple_request []
           (answering 200 bare_tool_call_reply) []) = Ok r /\
    ChatResponse.id r = VStr "" /\
    ChatResponse.tool_calls r =
      [ToolCall.mk VNone VNone (VDict [("name", VNone); ("arguments", VDict [])])].
Proof.
  eexists. split; [vm_compute; reflexivity |]. split.
  - apply (proj2 (proj2 (proj2 DeepSeek_missing_keys))
             a_provider simple_request [] (answering 200 bare_tool_call_reply) []
             (reply 200 bare_tool_call_reply)
             [("choices",
               VList [VDict [("message", VDict [("tool_calls", VList [VDict []])])]])]).
    + reflexivity.
    + vm_compute. reflexivity.
    + reflexivity.
    + vm_compute. reflexivity.
  - reflexivity.
Defined.
(** ** C9: the three providers are one transformation *)

Lemma Qwen_complete_run self request kwargs w log :
  Qwen.complete self request kwargs w log =
  (match network w (Qwen.post_request self request kwargs) with
   | Raise e => Raise e
   | Ok response =>
       if negb (Http.status_code response =? 200) then
         Raise (Exception [Lit "Qwen API error: ";
                           Fmt (VInt (Http.status_code response));
                           Lit " - ";
                           Fmt (VStr (Http.text response))])
       else Qwen.chat_response self request kwargs (python w) response
   end,
   (log ++ [Qwen.post_request self request kwargs])%list).
Proof.
  unfold Qwen.complete, bind, client_post, the_interpreter.
  destruct (network w _) as [response | e]; [| reflexivity].
  destruct (negb _); reflexivity.
Qed.

Lemma Doubao_complete_run self request kwargs w log :
  Doubao.complete self request kwargs w log =
  (match network w (Doubao.post_request self request kwargs) with
   | Raise e => Raise e
   | Ok response =>
       if negb (Http.status_code response =? 200) then
         Raise (Exception [Lit "Doubao API error: ";
                           Fmt (VInt (Http.status_code response));
                           Lit " - ";
                           Fmt (VStr (Http.text response))])
       else Doubao.chat_response self request kwargs (python w) response
   end,
   (log ++ [Doubao.post_request self request kwargs])%list).
Proof.
  unfold Doubao.complete, bind, client_post, the_interpreter.
  destruct (network w _) as [response | e]; [| reflexivity].
  destruct (negb _); reflexivity.
Qed.

Lemma agree_refl v1 v2 r : agree v1 v2 r r.
Proof. destruct r; cbn; [reflexivity | apply same_error_refl]. Qed.

Lemma agree_Ok v1 v2 r1 r2 a : agree v1 v2 r1 r2 -> r1 = Ok a <-> r2 = Ok a.
Proof.
  destruct r1, r2; cbn; try contradiction.
  - intros ->. reflexivity.
  - intros _. split; discriminate.
Qed.

Lemma Qwen_chat_response_agree ds qw request kwargs py response :
  DeepSeek.default_model ds = Qwen.default_model qw ->
  agree "DeepSeek" "Qwen"
    (DeepSeek.chat_response ds request kwargs py response)
    (Qwen.chat_response qw request kwargs py response).
Proof.
  intros Hm.
  unfold DeepSeek.chat_response, Qwen.chat_response, DeepSeek.model, Qwen.model.
  rewrite Hm.
  destruct (response_json response) as [data |]; cbn [rbind];
    [| apply agree_refl].
  destruct (get data "choices" (VList [])) as [choices |]; cbn [rbind];
    [| apply agree_refl].
  destruct (negb (truthy choices)).
  - exact (same_error_vendor "DeepSeek" "Qwen" " API returned no choices" []).
  - apply agree_refl.
Qed.

Lemma Doubao_chat_response_agree ds db request kwargs py response :
  DeepSeek.default_model ds = Doubao.default_model db ->
  agree "DeepSeek" "Doubao"
    (DeepSeek.chat_response ds request kwargs py response)
    (Doubao.chat_response db request kwargs py response).
Proof.
  intros Hm.
  unfold DeepSeek.chat_response, Doubao.chat_response, DeepSeek.model, Doubao.model.
  rewrite Hm.
  destruct (response_json response) as [data |]; cbn [rbind];
    [| apply agree_refl].
  destruct (get data "choices" (VList [])) as [choices |]; cbn [rbind];
    [| apply agree_refl].
  destruct (negb (truthy choices)).
  - exact (same_error_vendor "DeepSeek" "Doubao" " API returned no choices" []).
  - apply agree_refl.
Qed.

(** C9.  Let a DeepSeek, a Qwen and a Doubao provider hold the same base
    URL, API key and default model.  For every request, overrides and
    world the three send the same single HTTP request (so the same
    payload), and their calls agree: one returns a response exactly when
    the others return that same response, and they fail together, with
    the same exception up to the vendor's name in its message. *)
Theorem providers_agree (ds : DeepSeek.Provider) (qw : Qwen.Provider)
    (db : Doubao.Provider) request kwargs w log :
  DeepSeek.base_url ds = Qwen.base_url qw ->
  DeepSeek.base_url ds = Doubao.base_url db ->
  DeepSeek.api_key ds = Qwen.api_key qw ->
  DeepSeek.api_key ds = Doubao.api_key db ->
  DeepSeek.default_model ds = Qwen.default_model qw ->
  DeepSeek.default_model ds = Doubao.default_model db ->
  let sent := DeepSeek.post_request ds request kwargs in
  let by_deepseek := DeepSeek.complete ds request kwargs w log in
  let by_qwen := Qwen.complete qw request kwargs w log in
  let by_doubao := Doubao.complete db request kwargs w log in
  Http.json sent = VDict (DeepSeek.payload ds request kwargs) /\
  Qwen.payload qw request kwargs = DeepSeek.payload ds request kwargs /\
  Doubao.payload db request kwargs = DeepSeek.payload ds request kwargs /\
  snd by_deepseek = (log ++ [sent])%list /\
  snd by_qwen = (log ++ [sent])%list /\
  snd by_doubao = (log ++ [sent])%list /\
  agree "DeepSeek" "Qwen" (fst by_deepseek) (fst by_qwen) /\
  agree "DeepSeek" "Doubao" (fst by_deepseek) (fst by_doubao) /\
  (forall r, fst by_deepseek = Ok r <-> fst by_qwen = Ok r) /\
  (forall r, fst by_deepseek = Ok r <-> fst by_doubao = Ok r).
Proof.
  intros Hu1 Hu2 Hk1 Hk2 Hm1 Hm2. cbv zeta.
  assert (Hp1 : Qwen.payload qw request kwargs = DeepSeek.payload ds request kwargs).
  { unfold Qwen.payload, DeepSeek.payload, Qwen.model, DeepSeek.model.
    rewrite Hm1. reflexivity. }
  assert (Hp2 : Doubao.payload db request kwargs = DeepSeek.payload ds request kwargs).
  { unfold Doubao.payload, DeepSeek.payload, Doubao.model, DeepSeek.model.
    rewrite Hm2. reflexivity. }
  assert (Hr1 : Qwen.post_request qw request kwargs =
                DeepSeek.post_request ds request kwargs).
  { unfold Qwen.post_request, DeepSeek.post_request, Qwen.headers, DeepSeek.headers.
    rewrite Hp1, Hu1, Hk1. reflexivity. }
  assert (Hr2 : Doubao.post_request db request kwargs =
                DeepSeek.post_request ds request kwargs).
  { unfold Doubao.post_request, DeepSeek.post_request, Doubao.headers, DeepSeek.headers.
    rewrite Hp2, Hu2, Hk2. reflexivity. }
  assert (Ha1 : agree "DeepSeek" "Qwen"
                  (fst (DeepSeek.complete ds request kwargs w log))
                  (fst (Qwen.complete qw request kwargs w log))).
  { rewrite DeepSeek_complete_run, Qwen_complete_run, Hr1. cbn [fst].
    destruct (network w _) as [response |]; [| apply agree_refl].
    destruct (negb _).
    - exact (same_error_vendor "DeepSeek" "Qwen" " API error: " _).
    - apply Qwen_chat_response_agree. exact Hm1. }
  assert (Ha2 : agree "DeepSeek" "Doubao"
                  (fst (DeepSeek.complete ds request kwargs w log))
                  (fst (Doubao.complete db request kwargs w log))).
  { rewrite DeepSeek_complete_run, Doubao_complete_run, Hr2. cbn [fst].
    destruct (network w _) as [response |]; [| apply agree_refl].
    destruct (negb _).
    - exact (same_error_vendor "DeepSeek" "Doubao" " API error: " _).
    - apply Doubao_chat_response_agree. exact Hm2. }
  split; [reflexivity |]. split; [exact Hp1 |]. split; [exact Hp2 |].
  split; [rewrite DeepSeek_complete_run; reflexivity |].
  split; [rewrite Qwen_complete_run, Hr1; reflexivity |].
  split; [rewrite Doubao_complete_run, Hr2; reflexivity |].
  split; [exact Ha1 |]. split; [exact Ha2 |].
  split; intros r; eapply agree_Ok; eassumption.
Qed.

Lemma providers_agree_witness :
  Qwen.payload b_provider tool_request [] =
    DeepSeek.payload a_provider tool_request [] /\
  Doubao.payload c_provider tool_request [] =
    DeepSeek.payload a_provider tool_request [] /\
  agree "DeepSeek" "Qwen"
    (fst (DeepSeek.complete a_provider tool_request []
            (answering 200 broken_arguments_reply) []))
    (fst (Qwen.complete b_provider tool_request []
            (answering 200 broken_arguments_reply) [])) /\
  agree "DeepSeek" "Doubao"
    (fst (DeepSeek.complete a_provider tool_request []
            (answering 200 broken_arguments_reply) []))
    (fst (Doubao.complete c_provider tool_request []
            (answering 200 broken_arguments_reply) [])).
Proof.
  destruct (providers_agree a_provider b_provider c_provider tool_request []
              (answering 200 broken_arguments_reply) []
              eq_refl eq_refl eq_refl eq_refl eq_refl eq_refl)
    as (_ & Hq & Hd & _ & _ & _ & Haq & Had & _).
  repeat split; assumption.
Defined.

(** * Further properties of the providers *)

(** ** The request and the network *)

(** Whatever the network does, and whether the call returns or raises,
    [complete] sends exactly one request: a POST to the base URL followed
    by [/chat/completions], with the bearer key, the JSON content type,
    the payload as body and a timeout of 30. *)
Theorem complete_sends_one_request :
  (forall self request kwargs w log,
     snd (DeepSeek.complete self request kwargs w log) =
     (log ++ [{| Http.url := [Fmt (DeepSeek.base_url self); Lit "/chat/completions"];
                 Http.headers :=
                   [("Authorization", [Lit "Bearer "; Fmt (DeepSeek.api_key self)]);
                    ("Content-Type", [Lit "application/json"])];
                 Http.json := VDict (DeepSeek.payload self request kwargs);
                 Http.timeout := S754_finite false 8444249301319680 (-48) |}])%list) /\
  (forall self request kwargs w log,
     snd (Qwen.complete self request kwargs w log) =
     (log ++ [{| Http.url := [Fmt (Qwen.base_url self); Lit "/chat/completions"];
                 Http.headers :=
                   [("Authorization", [Lit "Bearer "; Fmt (Qwen.api_key self)]);
                    ("Content-Type", [Lit "application/json"])];
                 Http.json := VDict (Qwen.payload self request kwargs);
                 Http.timeout := S754_finite false 8444249301319680 (-48) |}])%list) /\
  (forall self request kwargs w log,
     snd (Doubao.complete self request kwargs w log) =
     (log ++ [{| Http.url := [Fmt (Doubao.base_url self); Lit "/chat/completions"];
                 Http.headers :=
                   [("Authorization", [Lit "Bearer "; Fmt (Doubao.api_key self)]);
                    ("Content-Type", [Lit "application/json"])];
                 Http.json := VDict (Doubao.payload self request kwargs);
                 Http.timeout := S754_finite false 8444249301319680 (-48) |}])%list).
Proof.
  split; [| split]; intros self request kwargs w log.
  - rewrite DeepSeek_complete_run. reflexivity.
  - rewrite Qwen_complete_run. reflexivity.
  - rewrite Doubao_complete_run. reflexivity.
Qed.

(** An exception of the HTTP client leaves [complete] as it is: nothing
    is wrapped, retried or decoded. *)
Theorem complete_network_failure self request kwargs w log e :
  network w (DeepSeek.post_request self request kwargs) = Raise e ->
  DeepSeek.complete self request kwargs w log =
  (Raise e, (log ++ [DeepSeek.post_request self request kwargs])%list).
Proof. intros H. rewrite DeepSeek_complete_run, H. reflexivity. Qed.

Lemma complete_network_failure_witness :
  DeepSeek.complete a_provider simple_request []
    (with_env "DEEPSEEK_API_KEY" "sk-2") [] =
  (Raise (HTTPError "unreachable"),
   [DeepSeek.post_request a_provider simple_request []]).
Proof.
  exact (complete_network_failure a_provider simple_request []
           (with_env "DEEPSEEK_API_KEY" "sk-2") [] (HTTPError "unreachable")
           eq_refl).
Defined.

(** [complete] reads the world through the answer to its one request
    and the interpreter's limits only: two worlds with the same
    interpreter that answer this request alike give the same result,
    whatever their environment variables and their answers to other
    requests. *)
Theorem complete_depends_on_the_answer_only self request kwargs w1 w2 log :
  python w1 = python w2 ->
  network w1 (DeepSeek.post_request self request kwargs) =
  network w2 (DeepSeek.post_request self request kwargs) ->
  DeepSeek.complete self request kwargs w1 log =
  DeepSeek.complete self request kwargs w2 log.
Proof. intros Hpy H. rewrite !DeepSeek_complete_run, H, Hpy. reflexivity. Qed.

Lemma complete_depends_on_the_answer_only_witness :
  DeepSeek.complete a_provider simple_request [] (answering 200 plain_reply) [] =
  DeepSeek.complete a_provider simple_request []
    (answering_with_env "DEEPSEEK_API_KEY" "sk-9" 200 plain_reply) [].
Proof.
  exact (complete_depends_on_the_answer_only a_provider simple_request []
           (answering 200 plain_reply)
           (answering_with_env "DEEPSEEK_API_KEY" "sk-9" 200 plain_reply) []
           eq_refl eq_refl).
Defined.

(** Nothing is cached between calls: a second [complete] with the same
    arguments sends the same request again and, in the same world,
    returns the same response. *)
Theorem complete_twice self request kwargs w log r :
  fst (DeepSeek.complete self request kwargs w log) = Ok r ->
  (r1 <- DeepSeek.complete self request kwargs ;;
   r2 <- DeepSeek.complete self request kwargs ;;
   ret (r1, r2)) w log =
  (Ok (r, r),
   (log ++ [DeepSeek.post_request self request kwargs;
            DeepSeek.post_request self request kwargs])%list).
Proof.
  intros H. unfold bind at 1.
  rewrite DeepSeek_complete_run in H |- *. cbn [fst] in H. rewrite H.
  unfold bind. rewrite DeepSeek_complete_run, H. unfold ret.
  rewrite <- app_assoc. reflexivity.
Qed.

Lemma complete_twice_witness :
  exists r,
    (r1 <- DeepSeek.complete a_provider simple_request [] ;;
     r2 <- DeepSeek.complete a_provider simple_request [] ;;
     ret (r1, r2)) (answering 200 plain_reply) [] =
    (Ok (r, r),
     [DeepSeek.post_request a_provider simple_request [];
      DeepSeek.post_request a_provider simple_request []]).
Proof.
  eexists.
  apply (complete_twice a_provider simple_request [] (answering 200 plain_reply) []).
  vm_compute. reflexivity.
Defined.

(** ** The payload *)

(** The messages go into the payload one for one and in order, each as a
    dict of exactly [role] and [content] holding the message's own
    values; this does not depend on the tools or the overrides. *)
Theorem messages_encoded_in_order self request kwargs :
  exists l,
    lookup "messages" (DeepSeek.payload self request kwargs) = Some (VList l) /\
    length l = length (ChatRequest.messages request) /\
    forall i msg,
      nth_error (ChatRequest.messages request) i = Some msg ->
      nth_error l i =
      Some (VDict [("role", ChatMessage.role msg);
                   ("content", ChatMessage.content msg)]).
Proof.
  exists (DeepSeek.deepseek_messages request). split; [| split].
  - unfold DeepSeek.payload.
    destruct (nonempty _); [destruct (DeepSeek.deepseek_tools _) |]; reflexivity.
  - unfold DeepSeek.deepseek_messages, DeepSeek.messages. apply length_map.
  - intros i msg H. unfold DeepSeek.deepseek_messages, DeepSeek.messages.
    rewrite nth_error_map, H. reflexivity.
Qed.

Lemma messages_encoded_in_order_witness :
  exists l,
    lookup "messages" (DeepSeek.payload a_provider tool_request []) = Some (VList l) /\
    nth_error l 0 = Some (VDict [("role", VStr "user"); ("content", VStr "2+2?")]).
Proof.
  destruct (messages_encoded_in_order a_provider tool_request [])
    as (l & Hl & _ & Hnth).
  exists l. split; [exact Hl |].
  exact (Hnth 0%nat (ChatMessage.mk (VStr "user") (VStr "2+2?")) eq_refl).
Defined.

(** The model sent is the override when the overrides have the key
    [model] (even with the value [None] or the empty string), otherwise
    the request's model when that is truthy, otherwise the provider's
    default; and a response that [complete] returns carries exactly the
    model that was sent. *)
Theorem model_sent_is_model_returned self request kwargs :
  lookup "model" (DeepSeek.payload self request kwargs) =
    Some match lookup "model" kwargs with
         | Some m => m
         | None =>
             if truthy (ChatRequest.model request) then ChatRequest.model request
             else DeepSeek.default_model self
         end /\
  forall w log r,
    fst (DeepSeek.complete self request kwargs w log) = Ok r ->
    lookup "model" (DeepSeek.payload self request kwargs) =
    Some (ChatResponse.model r).
Proof.
  assert (Hp : lookup "model" (DeepSeek.payload self request kwargs) =
               Some (DeepSeek.model self request kwargs)).
  { unfold DeepSeek.payload.
    destruct (nonempty _); [destruct (DeepSeek.deepseek_tools _) |]; reflexivity. }
  split; [exact Hp |].
  intros w log r. rewrite Hp, DeepSeek_complete_run. cbn [fst].
  destruct (network w _) as [response |]; [| discriminate].
  destruct (negb _); [discriminate |].
  unfold DeepSeek.chat_response. intros H.
  repeat match type of H with
    | rbind ?c _ = Ok _ => destruct c; cbn [rbind] in H; [| discriminate]
    | (if ?b then _ else _) = Ok _ => destruct b; [discriminate |]
    end.
  injection H as <-. reflexivity.
Qed.

Lemma model_sent_is_model_returned_witness :
  lookup "model" (DeepSeek.payload a_provider tool_request [("model", VNone)]) =
    Some VNone /\
  exists r,
    fst (DeepSeek.complete a_provider tool_request [("model", VNone)]
           (answering 200 plain_reply) []) = Ok r /\
    lookup "model" (DeepSeek.payload a_provider tool_request [("model", VNone)]) =
      Some (ChatResponse.model r).
Proof.
  split.
  - exact (proj1 (model_sent_is_model_returned a_provider tool_request
                    [("model", VNone)])).
  - eexists. split; [vm_compute; reflexivity |].
    apply (proj2 (model_sent_is_model_returned a_provider tool_request
                    [("model", VNone)])
             (answering 200 plain_reply) []).
    vm_compute. reflexivity.
Defined.

(** ** Tool calls *)

(** The tool calls of a response are the reply's entries decoded one for
    one and in the reply's order, none dropped, added or moved; and
    [parse_tool_calls] hands out exactly this list. *)
Theorem tool_calls_in_wire_order
    self request kwargs w log response d c rest m entries r :
  network w (DeepSeek.post_request self request kwargs) = Ok response ->
  Http.status_code response = 200 ->
  response_json response = Ok (VDict d) ->
  dict_get d "choices" (VList []) = VList (VDict c :: rest) ->
  dict_get c "message" (VDict []) = VDict m ->
  dict_get m "tool_calls" (VList []) = VList entries ->
  fst (DeepSeek.complete self request kwargs w log) = Ok r ->
  length (DeepSeek.parse_tool_calls self r) = length entries /\
  Forall2 (fun entry tc => DeepSeek.tool_call_obj (python w) entry = Ok tc)
    entries (DeepSeek.parse_tool_calls self r).
Proof.
  intros Hnet Hstatus Hd Hc Hm Ht.
  rewrite DeepSeek_complete_run, Hnet, Hstatus. cbn [fst Z.eqb Pos.eqb negb].
  rewrite (DeepSeek_chat_response_shape _ _ _ _ _ _ _ _ _ _ Hd Hc Hm Ht).
  destruct (for_each _ entries) as [tl |] eqn:Hloop; [| discriminate].
  intros H. injection H as <-.
  unfold DeepSeek.parse_tool_calls. cbn [ChatResponse.tool_calls].
  split; [exact (for_each_length _ _ _ Hloop) | apply for_each_Forall2; exact Hloop].
Qed.

Lemma tool_calls_in_wire_order_witness :
  exists r,
    fst (DeepSeek.complete a_provider simple_request []
           (answering 200 number_arguments_reply) []) = Ok r /\
    Forall2 (fun entry tc => DeepSeek.tool_call_obj cpython entry = Ok tc)
      [VDict [("id", VStr "c1"); ("type", VStr "function");
              ("function", VDict [("name", VStr "add");
                                  ("arguments", VStr "42")])]]
      (DeepSeek.parse_tool_calls a_provider r).
Proof.
  eexists. split; [vm_compute; reflexivity |].
  eapply proj2.
  eapply (tool_calls_in_wire_order a_provider simple_request []
            (answering 200 number_arguments_reply) []
            (reply 200 number_arguments_reply)).
  - reflexivity.
  - reflexivity.
  - vm_compute. reflexivity.
  - vm_compute. reflexivity.
  - vm_compute. reflexivity.
  - vm_compute. reflexivity.
  - vm_compute. reflexivity.
Defined.

Lemma DeepSeek_payload_tools self request kwargs tools wire_tools :
  ChatRequest.tools request = Some tools ->
  lookup "tools" (DeepSeek.payload self request kwargs) = Some (VList wire_tools) ->
  wire_tools =
  map (fun tool =>
         VDict [("type", VStr "function");
                ("function",
                 VDict [("name", ToolSpec.name tool);
                        ("description", ToolSpec.description tool);
                        ("parameters", ToolSpec.parameters tool)])])
      tools.
Proof.
  intros Ht. unfold DeepSeek.payload, DeepSeek.deepseek_tools, DeepSeek.tools.
  rewrite Ht. destruct tools as [| t ts]; cbn; [discriminate |].
  intros H. injection H as <-. reflexivity.
Qed.

Lemma echoed_entries_decode py (tools : list ToolSpec.t) (entries : list value) :
  Forall2 (fun wire_tool entry =>
             wire_function_name entry = wire_function_name wire_tool /\
             exists e f s,
               entry = VDict e /\
               lookup "function" e = Some (VDict f) /\
               dict_get f "arguments" (VStr "{}") = VStr s /\
               forall x, Json.loads py (VStr s) = Raise x -> x = JSONDecodeError)
    (map (fun tool =>
            VDict [("type", VStr "function");
                   ("function",
                    VDict [("name", ToolSpec.name tool);
                           ("description", ToolSpec.description tool);
                           ("parameters", ToolSpec.parameters tool)])])
         tools)
    entries ->
  exists tl,
    for_each (DeepSeek.tool_call_obj py) entries = Ok tl /\
    map function_name tl = map (fun tool => Some (ToolSpec.name tool)) tools.
Proof.
  revert entries. induction tools as [| t ts IH]; intros entries H.
  - inversion H. exists []. split; reflexivity.
  - cbn [map] in H. inversion H as [| wt entry wts rest Hhead Hrest]; subst.
    destruct (IH _ Hrest) as (tl & Hloop & Hnames).
    destruct Hhead as (Hname & e & f & s & -> & Hf & Ha & Hx).
    cbn in Hname. rewrite Hf in Hname.
    assert (Hf' : dict_get e "function" (VDict []) = VDict f)
      by (unfold dict_get; rewrite Hf; reflexivity).
    cbn [for_each]. rewrite (DeepSeek_tool_call_obj_dict _ _ _ Hf'). cbv zeta.
    rewrite Ha.
    assert (Hn : dict_get f "name" VNone = ToolSpec.name t)
      by (unfold dict_get; rewrite Hname; reflexivity).
    destruct (Json.loads py (VStr s)) as [v | x] eqn:Hloads;
      [| rewrite (Hx x eq_refl)];
      cbn [rbind]; rewrite Hloop; cbn [rbind];
      eexists; (split; [reflexivity |]); cbn [map]; rewrite Hnames;
      unfold function_name; cbn; rewrite Hn; reflexivity.
Qed.

(** Tool names make the round trip.  When the reply's tool calls echo the
    tools of the payload (entry by entry the same [function.name], with
    a string, or nothing, as arguments, on which [json.loads] raises
    nothing but a [JSONDecodeError]), [complete] returns one tool call
    per tool of the request, and the names of the tool calls are the
    names of the request's tools, in order. *)
Theorem tool_names_round_trip
    self request kwargs w log response d c rest m tools wire_tools entries :
  ChatRequest.tools request = Some tools ->
  lookup "tools" (DeepSeek.payload self request kwargs) = Some (VList wire_tools) ->
  network w (DeepSeek.post_request self request kwargs) = Ok response ->
  Http.status_code response = 200 ->
  response_json response = Ok (VDict d) ->
  dict_get d "choices" (VList []) = VList (VDict c :: rest) ->
  dict_get c "message" (VDict []) = VDict m ->
  dict_get m "tool_calls" (VList []) = VList entries ->
  Forall2 (fun wire_tool entry =>
             wire_function_name entry = wire_function_name wire_tool /\
             exists e f s,
               entry = VDict e /\
               lookup "function" e = Some (VDict f) /\
               dict_get f "arguments" (VStr "{}") = VStr s /\
               forall x, Json.loads (python w) (VStr s) = Raise x ->
                         x = JSONDecodeError)
    wire_tools entries ->
  exists r,
    fst (DeepSeek.complete self request kwargs w log) = Ok r /\
    map function_name (ChatResponse.tool_calls r) =
    map (fun tool => Some (ToolSpec.name tool)) tools.
Proof.
  intros Htools Hp Hnet Hstatus Hd Hc Hm Ht Hecho.
  rewrite (DeepSeek_payload_tools _ _ _ _ _ Htools Hp) in Hecho.
  destruct (echoed_entries_decode _ _ _ Hecho) as (tl & Hloop & Hnames).
  rewrite DeepSeek_complete_run, Hnet, Hstatus. cbn [fst Z.eqb Pos.eqb negb].
  rewrite (DeepSeek_chat_response_shape _ _ _ _ _ _ _ _ _ _ Hd Hc Hm Ht), Hloop.
  eexists. split; [reflexivity | exact Hnames].
Qed.

Lemma tool_names_round_trip_witness :
  exists r,
    fst (DeepSeek.complete a_provider tool_request []
           (answering 200 echo_reply) []) = Ok r /\
    map function_name (ChatResponse.tool_calls r) = [Some (VStr "add")].
Proof.
  eapply (tool_names_round_trip a_provider tool_request []
            (answering 200 echo_reply) []
            (reply 200 echo_reply) _ _ _ _ [add_tool]).
  - reflexivity.
  - reflexivity.
  - reflexivity.
  - reflexivity.
  - vm_compute. reflexivity.
  - vm_compute. reflexivity.
  - vm_compute. reflexivity.
  - vm_compute. reflexivity.
  - constructor; [| constructor]. split; [reflexivity |].
    eexists _, _, _. split; [reflexivity |]. split; [reflexivity |].
    split; [reflexivity |]. intros x Hx. vm_compute in Hx. discriminate Hx.
Defined.

(** ** Decoding: what passes through *)

(** In a returned response, [id] and [usage] are the reply's own values
    and [role] and [content] the message's own values, whatever they are
    (a [null] content stays [None]); only an absent key gives the default:
    the empty string, the empty mapping, ["assistant"] and the empty
    string. *)
Theorem envelope_passes_through
    self request kwargs w log response d c rest m r :
  network w (DeepSeek.post_request self request kwargs) = Ok response ->
  response_json response = Ok (VDict d) ->
  dict_get d "choices" (VList []) = VList (VDict c :: rest) ->
  dict_get c "message" (VDict []) = VDict m ->
  fst (DeepSeek.complete self request kwargs w log) = Ok r ->
  ChatResponse.id r =
    match lookup "id" d with Some v => v | None => VStr "" end /\
  ChatResponse.usage r =
    match lookup "usage" d with Some v => v | None => VDict [] end /\
  ChatResponse.role r =
    match lookup "role" m with Some v => v | None => VStr "assistant" end /\
  ChatResponse.content r =
    match lookup "content" m with Some v => v | None => VStr "" end.
Proof.
  intros Hnet Hd Hc Hm.
  rewrite DeepSeek_complete_run, Hnet. cbn [fst].
  destruct (negb _); [discriminate |].
  unfold DeepSeek.chat_response.
  rewrite Hd. cbn [rbind get]. rewrite Hc. cbn [truthy negb getitem0 rbind get].
  rewrite Hm. cbn [rbind get].
  destruct (iter _) as [items |]; cbn [rbind]; [| discriminate].
  destruct (for_each _ items); cbn [rbind]; [| discriminate].
  intros H. injection H as <-. repeat split.
Qed.

Lemma envelope_passes_through_witness :
  exists r,
    fst (DeepSeek.complete a_provider tool_request []
           (answering 200 echo_reply) []) = Ok r /\
    ChatResponse.id r = VStr "x5" /\
    ChatResponse.usage r = VDict [] /\
    ChatResponse.role r = VStr "assistant" /\
    ChatResponse.content r = VNone.
Proof.
  eexists. split; [vm_compute; reflexivity |].
  pose (entry := VDict [("id", VStr "c1"); ("type", VStr "function");
                        ("function", VDict [("name", VStr "add");
                                            ("arguments", VStr "{}")])]).
  pose (m := [("content", VNone); ("tool_calls", VList [entry])]).
  pose (c := [("message", VDict m)]).
  pose (d := [("id", VStr "x5"); ("choices", VList [VDict c])]).
  apply (envelope_passes_through a_provider tool_request []
           (answering 200 echo_reply) [] (reply 200 echo_reply)
           d c [] m).
  - reflexivity.
  - vm_compute. reflexivity.
  - reflexivity.
  - reflexivity.
  - vm_compute. reflexivity.
Defined.

(** Only the first choice is read: in the same interpreter, two 200
    replies with the same [id], the same [usage] and the same first
    choice give the same result, whatever their other choices and other
    keys. *)
Theorem only_first_choice_is_read
    self request kwargs w1 w2 log r1 r2 d1 d2 choice rest1 rest2 :
  python w1 = python w2 ->
  network w1 (DeepSeek.post_request self request kwargs) = Ok r1 ->
  network w2 (DeepSeek.post_request self request kwargs) = Ok r2 ->
  Http.status_code r1 = 200 ->
  Http.status_code r2 = 200 ->
  response_json r1 = Ok (VDict d1) ->
  response_json r2 = Ok (VDict d2) ->
  dict_get d1 "choices" (VList []) = VList (choice :: rest1) ->
  dict_get d2 "choices" (VList []) = VList (choice :: rest2) ->
  lookup "id" d1 = lookup "id" d2 ->
  lookup "usage" d1 = lookup "usage" d2 ->
  fst (DeepSeek.complete self request kwargs w1 log) =
  fst (DeepSeek.complete self request kwargs w2 log).
Proof.
  intros Hpy Hn1 Hn2 Hs1 Hs2 Hd1 Hd2 Hc1 Hc2 Hid Hus.
  rewrite !DeepSeek_complete_run, Hn1, Hn2, Hs1, Hs2, Hpy.
  cbn [fst Z.eqb Pos.eqb negb].
  unfold DeepSeek.chat_response.
  rewrite Hd1, Hd2. cbn [rbind get]. rewrite Hc1, Hc2.
  cbn [truthy negb getitem0 rbind]. unfold dict_get. rewrite Hid, Hus.
  reflexivity.
Qed.

Lemma only_first_choice_is_read_witness :
  fst (DeepSeek.complete a_provider simple_request []
         (answering 200 plain_reply) []) =
  fst (DeepSeek.complete a_provider simple_request []
         (answering 200 two_choices_reply) []).
Proof.
  eapply (only_first_choice_is_read a_provider simple_request []
            (answering 200 plain_reply) (answering 200 two_choices_reply) []
            (reply 200 plain_reply)
            (reply 200 two_choices_reply)).
  - reflexivity.
  - reflexivity.
  - reflexivity.
  - reflexivity.
  - reflexivity.
  - vm_compute. reflexivity.
  - vm_compute. reflexivity.
  - vm_compute. reflexivity.
  - vm_compute. reflexivity.
  - reflexivity.
  - reflexivity.
Defined.

(** ** Decoding: what raises *)

Lemma chars_nil s : chars s = [] -> s = EmptyString.
Proof.
  destruct s as [| c rest]; [reflexivity |]. cbn.
  destruct (chars rest) as [| [| c' g] gs]; [discriminate | discriminate |].
  destruct (is_continuation c'); discriminate.
Qed.

Lemma get_raises_attribute o k dflt e : get o k dflt = Raise e -> e = AttributeError.
Proof. destruct o; cbn; intros H; inversion H; reflexivity. Qed.

Lemma iter_raises_type o e : iter o = Raise e -> e = TypeError.
Proof. destruct o; cbn; intros H; inversion H; reflexivity. Qed.

Lemma getitem0_raises_truthy o e :
  truthy o = true -> getitem0 o = Raise e -> e = KeyError \/ e = TypeError.
Proof.
  destruct o as [| | | | s | [|] |]; cbn; intros Ht H;
    try discriminate; try (inversion H; auto; fail).
  destruct (chars s) eqn:Hs; [| discriminate].
  apply chars_nil in Hs. subst s. discriminate.
Qed.

Lemma exn_of_syntax fl : Json.exn_of fl = JSONDecodeError -> fl = Json.Syntax.
Proof. destruct fl; cbn; intros H; try discriminate H; reflexivity. Qed.

(** The failures of one turn of the loop: an entry or a [function] that
    is not an object, arguments that are not a string, or an arguments
    string on which [json.loads] raises something else than a
    [JSONDecodeError]. *)
Lemma DeepSeek_tool_call_obj_raises_cases py entry e :
  DeepSeek.tool_call_obj py entry = Raise e ->
  e = AttributeError \/ e = TypeError \/
  exists d f s fl,
    entry = VDict d /\
    dict_get d "function" (VDict []) = VDict f /\
    dict_get f "arguments" (VStr "{}") = VStr s /\
    Json.decode py s = Json.Failed fl /\
    fl <> Json.Syntax /\
    e = Json.exn_of fl.
Proof.
  destruct entry as [| | | | | | d];
    try (cbn; intros H; injection H as <-; left; reflexivity).
  destruct (dict_get d "function" (VDict [])) as [| | | | | | f] eqn:Hf;
    try (unfold DeepSeek.tool_call_obj, get; cbn [rbind]; rewrite Hf;
         intros H; injection H as <-; left; reflexivity).
  destruct (dict_get f "arguments" (VStr "{}")) as [| | | | s | |] eqn:Ha;
    try (rewrite (DeepSeek_tool_call_obj_dict _ _ _ Hf); cbv zeta; rewrite Ha;
         cbn; intros H; injection H as <-; right; left; reflexivity).
  rewrite (DeepSeek_tool_call_obj_string _ _ _ _ Hf Ha). cbv zeta.
  destruct (Json.decode py s) as [v | fl] eqn:Hs; [discriminate |].
  intros H. right. right. exists d, f, s, fl.
  split; [reflexivity |]. split; [exact Hf |]. split; [exact Ha |].
  split; [exact Hs |].
  destruct fl; try discriminate H; (split; [discriminate |]);
    injection H as <-; reflexivity.
Qed.

(** The failures of decoding a 200 reply. *)
Lemma DeepSeek_chat_response_raises_cases self request kwargs py response e :
  DeepSeek.chat_response self request kwargs py response = Raise e ->
  (exists fl, Http.json_result response = Json.Failed fl /\ e = Json.exn_of fl) \/
  (exists data, response_json response = Ok data /\
     ((e = Exception [Lit "DeepSeek API returned no choices"] /\
       exists d, data = VDict d /\
                 truthy (dict_get d "choices" (VList [])) = false) \/
      ((e = AttributeError \/ e = TypeError \/ e = KeyError) /\
       forall d, data = VDict d ->
                 truthy (dict_get d "choices" (VList [])) = true) \/
      (exists s fl, Json.decode py s = Json.Failed fl /\
                    fl <> Json.Syntax /\ e = Json.exn_of fl))).
Proof.
  unfold DeepSeek.chat_response, response_json.
  destruct (Http.json_result response) as [data | fl];
    cbn [Json.to_result rbind];
    [| intros H; injection H as <-; left; exists fl; split; reflexivity].
  intros H. right. exists data. split; [reflexivity |].
  destruct data as [| | | | | | d];
    try (cbn in H; injection H as <-; right; left; split; [auto | discriminate]).
  cbn [get rbind] in H.
  destruct (truthy (dict_get d "choices" (VList []))) eqn:Htruthy; cbn [negb] in H.
  - right.
    assert (Hd : forall d', VDict d = VDict d' ->
                 truthy (dict_get d' "choices" (VList [])) = true)
      by (intros d' Hd'; injection Hd' as <-; exact Htruthy).
    raised H;
      try (apply get_raises_attribute in H; left; auto; fail);
      try (apply iter_raises_type in H; left; auto; fail);
      try discriminate.
    + apply (getitem0_raises_truthy _ _ Htruthy) in H. left. split; [tauto | exact Hd].
    + apply for_each_raises in H as (x & _ & Hx).
      apply DeepSeek_tool_call_obj_raises_cases in Hx
        as [Hx | [Hx | (_ & _ & s & fl & _ & _ & _ & Hs & Hfl & He)]].
      * left. auto.
      * left. auto.
      * right. exists s, fl. auto.
  - injection H as <-. left. split; [reflexivity |]. exists d. auto.
Qed.



(** A [JSONDecodeError] out of [complete] always means that
    [response.json()] raised it on a 200 reply, and every such reply
    gives it: malformed arguments of a tool call never surface as this
    error. *)
Theorem json_error_iff_response_json_raises_it self request kwargs w log response :
  network w (DeepSeek.post_request self request kwargs) = Ok response ->
  fst (DeepSeek.complete self request kwargs w log) = Raise JSONDecodeError <->
  Http.status_code response = 200 /\
  response_json response = Raise JSONDecodeError.
Proof.
  intros Hnet. rewrite DeepSeek_complete_run, Hnet. cbn [fst].
  destruct (Z.eqb_spec (Http.status_code response) 200) as [Heq | Hne];
    cbn [negb]; split.
  - intros H. split; [exact Heq |].
    apply DeepSeek_chat_response_raises_cases in H
      as [(fl & Hd & He) |
          (data & _ & [(H & _) | [([H | [H | H]] & _) | (s & fl & _ & Hfl & He)]])];
      try discriminate H.
    + unfold response_json. rewrite Hd. cbn. congruence.
    + exfalso. apply Hfl, exn_of_syntax. symmetry. exact He.
  - intros (_ & Hd).
    unfold DeepSeek.chat_response. rewrite Hd. reflexivity.
  - discriminate.
  - intros (H & _). contradiction.
Qed.

Lemma json_error_iff_response_json_raises_it_witness :
  fst (DeepSeek.complete a_provider simple_request []
         (answering 200 "<html>") []) = Raise JSONDecodeError.
Proof.
  apply (proj2 (json_error_iff_response_json_raises_it a_provider simple_request []
                  (answering 200 "<html>") [] (reply 200 "<html>")
                  eq_refl)).
  split; [reflexivity | vm_compute; reflexivity].
Defined.

(** For a 200 reply that is an object, the error that no choices were
    returned is raised exactly when [choices] is falsy: absent, the empty
    list, but also [null], [false], zero, the empty string or the empty
    object. *)
Theorem no_choices_iff_falsy self request kwargs w log response d :
  network w (DeepSeek.post_request self request kwargs) = Ok response ->
  Http.status_code response = 200 ->
  response_json response = Ok (VDict d) ->
  fst (DeepSeek.complete self request kwargs w log) =
    Raise (Exception [Lit "DeepSeek API returned no choices"]) <->
  truthy (dict_get d "choices" (VList [])) = false.
Proof.
  intros Hnet Hstatus Hd.
  rewrite DeepSeek_complete_run, Hnet, Hstatus. cbn [fst Z.eqb Pos.eqb negb].
  split.
  - intros H.
    apply DeepSeek_chat_response_raises_cases in H
      as [(fl & Hfl & H) |
          (data & Hd' & [(_ & d' & -> & Hc) |
                         [([H | [H | H]] & _) | (s & fl & _ & _ & H)]])];
      try discriminate H; try (destruct fl; discriminate H).
    rewrite Hd in Hd'. injection Hd' as ->. exact Hc.
  - intros Hc. unfold DeepSeek.chat_response.
    rewrite Hd. cbn [rbind get]. rewrite Hc. reflexivity.
Qed.

Lemma no_choices_iff_falsy_witness :
  fst (DeepSeek.complete a_provider simple_request []
         (answering 200 (q "{'choices':null}")) []) =
  Raise (Exception [Lit "DeepSeek API returned no choices"]).
Proof.
  apply (proj2 (no_choices_iff_falsy a_provider simple_request []
                  (answering 200 (q "{'choices':null}")) []
                  (reply 200 (q "{'choices':null}"))
                  [("choices", VNone)] eq_refl eq_refl eq_refl)).
  reflexivity.
Defined.

(** A message whose [tool_calls] is present but is [null], a boolean or a
    number makes [complete] raise a [TypeError]: the default of no tool
    calls applies to an absent key only. *)
Theorem tool_calls_not_iterable
    self request kwargs w log response d c rest m v :
  network w (DeepSeek.post_request self request kwargs) = Ok response ->
  Http.status_code response = 200 ->
  response_json response = Ok (VDict d) ->
  dict_get d "choices" (VList []) = VList (VDict c :: rest) ->
  dict_get c "message" (VDict []) = VDict m ->
  lookup "tool_calls" m = Some v ->
  not_iterable v = true ->
  fst (DeepSeek.complete self request kwargs w log) = Raise TypeError.
Proof.
  intros Hnet Hstatus Hd Hc Hm Ht Hv.
  rewrite DeepSeek_complete_run, Hnet, Hstatus. cbn [fst Z.eqb Pos.eqb negb].
  unfold DeepSeek.chat_response.
  rewrite Hd. cbn [rbind get]. rewrite Hc. cbn [truthy negb getitem0 rbind get].
  rewrite Hm. cbn [rbind get]. unfold dict_get. rewrite Ht.
  destruct v; try discriminate Hv; reflexivity.
Qed.

Lemma tool_calls_not_iterable_witness :
  fst (DeepSeek.complete a_provider simple_request []
         (answering 200 null_tool_calls_reply) []) = Raise TypeError.
Proof.
  pose (m := [("content", VStr "hi"); ("tool_calls", VNone)]).
  pose (c := [("message", VDict m)]).
  pose (d := [("id", VStr "x6"); ("choices", VList [VDict c])]).
  apply (tool_calls_not_iterable a_provider simple_request []
           (answering 200 null_tool_calls_reply) []
           (reply 200 null_tool_calls_reply) d c [] m VNone).
  - reflexivity.
  - reflexivity.
  - vm_compute. reflexivity.
  - reflexivity.
  - reflexivity.
  - reflexivity.
  - reflexivity.
Defined.

(** A 200 reply that is JSON of another shape than expected: a body that
    is not an object, a string under [choices] or a first choice that is
    not an object raise an [AttributeError]; a non-empty object under
    [choices] raises a [KeyError]; [true] or a non-zero number under
    [choices] raises a [TypeError]. *)
Theorem unexpected_shapes self request kwargs w log response data :
  network w (DeepSeek.post_request self request kwargs) = Ok response ->
  Http.status_code response = 200 ->
  response_json response = Ok data ->
  let outcome := fst (DeepSeek.complete self request kwargs w log) in
  (is_mapping data = false -> outcome = Raise AttributeError) /\
  (forall d, data = VDict d ->
     let choices := dict_get d "choices" (VList []) in
     (forall a s, choices = VStr (String a s) -> outcome = Raise AttributeError) /\
     (forall first others,
        choices = VList (first :: others) -> is_mapping first = false ->
        outcome = Raise AttributeError) /\
     (forall kv kvs, choices = VDict (kv :: kvs) -> outcome = Raise KeyError) /\
     (truthy choices = true -> not_iterable choices = true ->
      outcome = Raise TypeError)).
Proof.
  intros Hnet Hstatus Hd. cbv zeta.
  rewrite DeepSeek_complete_run, Hnet, Hstatus. cbn [fst Z.eqb Pos.eqb negb].
  unfold DeepSeek.chat_response. rewrite Hd.
  cbn [rbind]. split.
  - destruct data; try discriminate; reflexivity.
  - intros d ->. cbn [get rbind]. repeat split.
    + intros a s ->. cbn [truthy negb getitem0].
      destruct (chars (String a s)) eqn:Hc;
        [apply chars_nil in Hc; discriminate | reflexivity].
    + intros first others -> Hf. cbn [truthy negb getitem0 rbind].
      destruct first; try discriminate Hf; reflexivity.
    + intros kv kvs ->. reflexivity.
    + intros Ht Hn. rewrite Ht. cbn [negb].
      destruct (dict_get d "choices" (VList [])); try discriminate Hn; reflexivity.
Qed.

Lemma unexpected_shapes_witness :
  fst (DeepSeek.complete a_provider simple_request []
         (answering 200 "[]") []) = Raise AttributeError /\
  fst (DeepSeek.complete a_provider simple_request []
         (answering 200 (q "{'choices':{'0':1}}")) []) = Raise KeyError /\
  fst (DeepSeek.complete a_provider simple_request []
         (answering 200 (q "{'choices':7}")) []) = Raise TypeError /\
  fst (DeepSeek.complete a_provider simple_request []
         (answering 200 (q "{'choices':[null]}")) []) = Raise AttributeError.
Proof.
  split; [| split; [| split]].
  - apply (proj1 (unexpected_shapes a_provider simple_request []
                    (answering 200 "[]") [] (reply 200 "[]")
                    (VList []) eq_refl eq_refl eq_refl)).
    reflexivity.
  - destruct (proj2 (unexpected_shapes a_provider simple_request []
                       (answering 200 (q "{'choices':{'0':1}}")) []
                       (reply 200 (q "{'choices':{'0':1}}"))
                       (VDict [("choices", VDict [("0", VInt 1)])])
                       eq_refl eq_refl eq_refl) _ eq_refl)
      as (_ & _ & H & _).
    exact (H _ _ eq_refl).
  - destruct (proj2 (unexpected_shapes a_provider simple_request []
                       (answering 200 (q "{'choices':7}")) []
                       (reply 200 (q "{'choices':7}"))
                       (VDict [("choices", VInt 7)])
                       eq_refl eq_refl eq_refl) _ eq_refl)
      as (_ & _ & _ & H).
    exact (H eq_refl eq_refl).
  - destruct (proj2 (unexpected_shapes a_provider simple_request []
                       (answering 200 (q "{'choices':[null]}")) []
                       (reply 200 (q "{'choices':[null]}"))
                       (VDict [("choices", VList [VNone])])
                       eq_refl eq_refl eq_refl) _ eq_refl)
      as (_ & H & _).
    exact (H _ _ eq_refl eq_refl).
Defined.

(** ** Construction *)

Lemma DeepSeek_init_run (config : dict) (w : World) (log : list Http.Request) :
  DeepSeek.__init__ config w log =
  (let explicit := dict_get config "api_key" VNone in
   let from_env :=
     match environ w "DEEPSEEK_API_KEY" with
     | Some s => VStr s
     | None => VNone
     end in
   let built k :=
     Ok {| DeepSeek.config := config;
           DeepSeek.api_key := k;
           DeepSeek.base_url :=
             dict_get config "base_url" (VStr "https://api.deepseek.com/v1");
           DeepSeek.default_model :=
             dict_get config "default_model" (VStr "deepseek-chat");
           DeepSeek._name := "deepseek" |} in
   if truthy explicit then built explicit
   else if truthy from_env then built from_env
   else Raise (ValueError
          "DeepSeek API key not found in config or environment variable DEEPSEEK_API_KEY"),
   log).
Proof.
  cbv zeta.
  unfold DeepSeek.__init__, DeepSeek._get_api_key, bind, os_environ_get, ret, raise.
  destruct (truthy (dict_get config "api_key" VNone)); [reflexivity |].
  cbv beta iota. destruct (truthy _); reflexivity.
Qed.

Ltac constructed H :=
  cbv zeta in H; cbn [fst] in H;
  repeat match type of H with
    | (if ?b then _ else _) = Ok _ =>
        let E := fresh "E" in destruct b eqn:E; [| try discriminate H]
    end;
  try (injection H as <-).

(** A provider that has been constructed holds a truthy API key, the
    configuration it was given and its own fixed name.  Its base URL and
    default model are the configuration's entries whenever the keys are
    present, whatever their values (an empty or [null] entry is kept, it
    does not fall back), and the hard-coded defaults otherwise. *)
Theorem constructed_provider :
  (forall config w log self,
     fst (DeepSeek.__init__ config w log) = Ok self ->
     truthy (DeepSeek.api_key self) = true /\
     DeepSeek.config self = config /\
     DeepSeek._name self = "deepseek" /\
     DeepSeek.base_url self =
       match lookup "base_url" config with
       | Some v => v
       | None => VStr "https://api.deepseek.com/v1"
       end /\
     DeepSeek.default_model self =
       match lookup "default_model" config with
       | Some v => v
       | None => VStr "deepseek-chat"
       end) /\
  (forall config w log self,
     fst (Qwen.__init__ config w log) = Ok self ->
     truthy (Qwen.api_key self) = true /\
     Qwen.config self = config /\
     Qwen._name self = "qwen" /\
     Qwen.base_url self =
       match lookup "base_url" config with
       | Some v => v
       | None => VStr "https://api.tongyi.ai/v1"
       end /\
     Qwen.default_model self =
       match lookup "default_model" config with
       | Some v => v
       | None => VStr "qwen2.5-7b-instruct"
       end) /\
  (forall config w log self,
     fst (Doubao.__init__ config w log) = Ok self ->
     truthy (Doubao.api_key self) = true /\
     Doubao.config self = config /\
     Doubao._name self = "doubao" /\
     Doubao.base_url self =
       match lookup "base_url" config with
       | Some v => v
       | None => VStr "https://ark.cn-beijing.volces.com/api/v3"
       end /\
     Doubao.default_model self =
       match lookup "default_model" config with
       | Some v => v
       | None => VStr "doubao-1.5-pro-128k"
       end).
Proof.
  split; [| split]; intros config w log self H.
  - rewrite DeepSeek_init_run in H. constructed H; repeat split; assumption.
  - rewrite Qwen_api_key_resolution in H. constructed H; repeat split; assumption.
  - rewrite Doubao_api_key_resolution in H. constructed H; repeat split; assumption.
Qed.

Lemma constructed_provider_witness :
  exists self,
    fst (Qwen.__init__ [("base_url", VNone)] (with_env "QWEN_API_KEY" "sk-2") []) =
      Ok self /\
    Qwen.api_key self = VStr "sk-2" /\
    Qwen.base_url self = VNone /\
    Qwen.default_model self = VStr "qwen2.5-7b-instruct".
Proof.
  eexists. split; [reflexivity |]. split; [reflexivity |].
  destruct (proj1 (proj2 constructed_provider) [("base_url", VNone)]
              (with_env "QWEN_API_KEY" "sk-2") [] _ eq_refl)
    as (_ & _ & _ & Hu & Hm).
  split; [exact Hu | exact Hm].
Defined.

(** Construction reads one environment variable, the provider's own:
    worlds that agree on it give the same result.  With a truthy
    [api_key] in the configuration the environment is not consulted at
    all. *)
Theorem construction_reads_its_own_variable :
  (forall config w1 w2 log,
     environ w1 "DEEPSEEK_API_KEY" = environ w2 "DEEPSEEK_API_KEY" ->
     DeepSeek.__init__ config w1 log = DeepSeek.__init__ config w2 log) /\
  (forall config w1 w2 log,
     environ w1 "QWEN_API_KEY" = environ w2 "QWEN_API_KEY" ->
     Qwen.__init__ config w1 log = Qwen.__init__ config w2 log) /\
  (forall config w1 w2 log,
     environ w1 "DOUBAO_API_KEY" = environ w2 "DOUBAO_API_KEY" ->
     Doubao.__init__ config w1 log = Doubao.__init__ config w2 log) /\
  (forall config w1 w2 log,
     truthy (dict_get config "api_key" VNone) = true ->
     DeepSeek.__init__ config w1 log = DeepSeek.__init__ config w2 log /\
     Qwen.__init__ config w1 log = Qwen.__init__ config w2 log /\
     Doubao.__init__ config w1 log = Doubao.__init__ config w2 log).
Proof.
  split; [| split; [| split]]; intros config w1 w2 log H.
  - rewrite !DeepSeek_init_run, H. reflexivity.
  - rewrite !Qwen_api_key_resolution, H. reflexivity.
  - rewrite !Doubao_api_key_resolution, H. reflexivity.
  - rewrite !DeepSeek_init_run, !Qwen_api_key_resolution,
      !Doubao_api_key_resolution.
    cbv zeta. rewrite H. repeat split.
Qed.

Lemma construction_reads_its_own_variable_witness :
  Qwen.__init__ [] (with_env "DEEPSEEK_API_KEY" "sk-2") [] =
    Qwen.__init__ [] (answering 200 "") [] /\
  Doubao.__init__ [("api_key", VStr "sk-1")] (with_env "DOUBAO_API_KEY" "sk-2") [] =
    Doubao.__init__ [("api_key", VStr "sk-1")] (answering 200 "") [].
Proof.
  split.
  - exact (proj1 (proj2 construction_reads_its_own_variable) []
             (with_env "DEEPSEEK_API_KEY" "sk-2") (answering 200 "") [] eq_refl).
  - exact (proj2 (proj2 (proj2 (proj2 (proj2 construction_reads_its_own_variable))
                           [("api_key", VStr "sk-1")]
                           (with_env "DOUBAO_API_KEY" "sk-2") (answering 200 "") []
                           eq_refl))).
Defined.

(** ** Provider metadata *)

(** What [get_info] advertises is what construction does: the [id] is the
    provider's name; the advertised defaults are the base URL and default
    model a provider gets when its configuration has no such entry; and
    the one advertised credential variable is the variable whose value
    becomes the API key when the configuration has no truthy [api_key]. *)
Theorem get_info_matches_construction :
  (forall config w log self,
     fst (DeepSeek.__init__ config w log) = Ok self ->
     let info := DeepSeek.get_info self in
     ProviderInfo.id info = DeepSeek._name self /\
     (lookup "base_url" config = None ->
      lookup "base_url" (ProviderInfo.defaults info) = Some (DeepSeek.base_url self)) /\
     (lookup "default_model" config = None ->
      lookup "default_model" (ProviderInfo.defaults info) =
      Some (DeepSeek.default_model self)) /\
     (truthy (dict_get config "api_key" VNone) = false ->
      exists var k, ProviderInfo.credential_env_vars info = [var] /\
                    environ w var = Some k /\
                    DeepSeek.api_key self = VStr k)) /\
  (forall config w log self,
     fst (Qwen.__init__ config w log) = Ok self ->
     let info := Qwen.get_info self in
     ProviderInfo.id info = Qwen._name self /\
     (lookup "base_url" config = None ->
      lookup "base_url" (ProviderInfo.defaults info) = Some (Qwen.base_url self)) /\
     (lookup "default_model" config = None ->
      lookup "default_model" (ProviderInfo.defaults info) =
      Some (Qwen.default_model self)) /\
     (truthy (dict_get config "api_key" VNone) = false ->
      exists var k, ProviderInfo.credential_env_vars info = [var] /\
                    environ w var = Some k /\
                    Qwen.api_key self = VStr k)) /\
  (forall config w log self,
     fst (Doubao.__init__ config w log) = Ok self ->
     let info := Doubao.get_info self in
     ProviderInfo.id info = Doubao._name self /\
     (lookup "base_url" config = None ->
      lookup "base_url" (ProviderInfo.defaults info) = Some (Doubao.base_url self)) /\
     (lookup "default_model" config = None ->
      lookup "default_model" (ProviderInfo.defaults info) =
      Some (Doubao.default_model self)) /\
     (truthy (dict_get config "api_key" VNone) = false ->
      exists var k, ProviderInfo.credential_env_vars info = [var] /\
                    environ w var = Some k /\
                    Doubao.api_key self = VStr k)).
Proof.
  split; [| split]; intros config w log self H; cbv zeta.
  - rewrite DeepSeek_init_run in H. cbv zeta in H. cbn [fst] in H.
    destruct (truthy (dict_get config "api_key" VNone)) eqn:He.
    + injection H as <-. cbn. unfold dict_get.
      repeat split; try (intros ->; reflexivity). discriminate.
    + destruct (environ w "DEEPSEEK_API_KEY") as [k |] eqn:Hk;
        [| discriminate H].
      destruct (truthy (VStr k)); [| discriminate H].
      injection H as <-. cbn. unfold dict_get.
      repeat split; try (intros ->; reflexivity).
      intros _. exists "DEEPSEEK_API_KEY", k. auto.
  - rewrite Qwen_api_key_resolution in H. cbv zeta in H. cbn [fst] in H.
    destruct (truthy (dict_get config "api_key" VNone)) eqn:He.
    + injection H as <-. cbn. unfold dict_get.
      repeat split; try (intros ->; reflexivity). discriminate.
    + destruct (environ w "QWEN_API_KEY") as [k |] eqn:Hk;
        [| discriminate H].
      destruct (truthy (VStr k)); [| discriminate H].
      injection H as <-. cbn. unfold dict_get.
      repeat split; try (intros ->; reflexivity).
      intros _. exists "QWEN_API_KEY", k. auto.
  - rewrite Doubao_api_key_resolution in H. cbv zeta in H. cbn [fst] in H.
    destruct (truthy (dict_get config "api_key" VNone)) eqn:He.
    + injection H as <-. cbn. unfold dict_get.
      repeat split; try (intros ->; reflexivity). discriminate.
    + destruct (environ w "DOUBAO_API_KEY") as [k |] eqn:Hk;
        [| discriminate H].
      destruct (truthy (VStr k)); [| discriminate H].
      injection H as <-. cbn. unfold dict_get.
      repeat split; try (intros ->; reflexivity).
      intros _. exists "DOUBAO_API_KEY", k. auto.
Qed.

Lemma get_info_matches_construction_witness :
  exists self var,
    fst (Doubao.__init__ [] (with_env "DOUBAO_API_KEY" "sk-2") []) = Ok self /\
    ProviderInfo.credential_env_vars (Doubao.get_info self) = [var] /\
    environ (with_env "DOUBAO_API_KEY" "sk-2") var = Some "sk-2" /\
    lookup "base_url" (ProviderInfo.defaults (Doubao.get_info self)) =
      Some (Doubao.base_url self).
Proof.
  eexists. eexists. split; [reflexivity |].
  destruct (proj2 (proj2 get_info_matches_construction) []
              (with_env "DOUBAO_API_KEY" "sk-2") [] _ eq_refl)
    as (_ & Hu & _ & Hk).
  split; [reflexivity |]. split; [reflexivity |]. exact (Hu eq_refl).
Defined.

(** A provider constructed without a [default_model] entry uses a model
    that [list_models] lists, and that model is marked for [chat] and
    for [tool_calls], the two features [complete] relies on. *)
Theorem default_model_is_listed :
  (forall config w log self,
     fst (DeepSeek.__init__ config w log) = Ok self ->
     lookup "default_model" config = None ->
     exists mi,
       In mi (DeepSeek.list_models self) /\
       DeepSeek.default_model self = VStr (ModelInfo.id mi) /\
       In "chat" (ModelInfo.capabilities mi) /\
       In "tool_calls" (ModelInfo.capabilities mi)) /\
  (forall config w log self,
     fst (Qwen.__init__ config w log) = Ok self ->
     lookup "default_model" config = None ->
     exists mi,
       In mi (Qwen.list_models self) /\
       Qwen.default_model self = VStr (ModelInfo.id mi) /\
       In "chat" (ModelInfo.capabilities mi) /\
       In "tool_calls" (ModelInfo.capabilities mi)) /\
  (forall config w log self,
     fst (Doubao.__init__ config w log) = Ok self ->
     lookup "default_model" config = None ->
     exists mi,
       In mi (Doubao.list_models self) /\
       Doubao.default_model self = VStr (ModelInfo.id mi) /\
       In "chat" (ModelInfo.capabilities mi) /\
       In "tool_calls" (ModelInfo.capabilities mi)).
Proof.
  split; [| split]; intros config w log self H Hm.
  - rewrite DeepSeek_init_run in H. constructed H;
      (eexists; split; [left; reflexivity |]);
      cbn; unfold dict_get; rewrite Hm; cbn; tauto.
  - rewrite Qwen_api_key_resolution in H. constructed H;
      (eexists; split; [do 3 right; left; reflexivity |]);
      cbn; unfold dict_get; rewrite Hm; cbn; tauto.
  - rewrite Doubao_api_key_resolution in H. constructed H;
      (eexists; split; [left; reflexivity |]);
      cbn; unfold dict_get; rewrite Hm; cbn; tauto.
Qed.

Lemma default_model_is_listed_witness :
  exists mi,
    In mi (Qwen.list_models b_provider) /\
    ModelInfo.id mi = "qwen2.5-7b-instruct" /\
    In "tool_calls" (ModelInfo.capabilities mi).
Proof.
  destruct (proj1 (proj2 default_model_is_listed) [("api_key", VStr "sk-1")]
              (answering 200 "") [] _ eq_refl eq_refl)
    as (mi & Hin & Hid & _ & Htools).
  exists mi. split; [exact Hin |]. split; [| exact Htools].
  cbn in Hid. injection Hid as <-. reflexivity.
Defined.

(** The listings are well formed: no model id occurs twice, every model
    is marked for [chat], and no model's output limit exceeds its context
    window. *)
Theorem list_models_well_formed :
  (forall self,
     NoDup (map ModelInfo.id (DeepSeek.list_models self)) /\
     Forall (fun mi => In "chat" (ModelInfo.capabilities mi) /\
                       0 < ModelInfo.max_output_tokens mi <= ModelInfo.context_window mi)
       (DeepSeek.list_models self)) /\
  (forall self,
     NoDup (map ModelInfo.id (Qwen.list_models self)) /\
     Forall (fun mi => In "chat" (ModelInfo.capabilities mi) /\
                       0 < ModelInfo.max_output_tokens mi <= ModelInfo.context_window mi)
       (Qwen.list_models self)) /\
  (forall self,
     NoDup (map ModelInfo.id (Doubao.list_models self)) /\
     Forall (fun mi => In "chat" (ModelInfo.capabilities mi) /\
                       0 < ModelInfo.max_output_tokens mi <= ModelInfo.context_window mi)
       (Doubao.list_models self)).
Proof.
  split; [| split]; intros self;
    unfold DeepSeek.list_models, Qwen.list_models, Doubao.list_models;
    cbn [map ModelInfo.id]; split.
  all: first
    [ repeat (apply NoDup_cons; [cbn [In]; intuition discriminate |]);
      apply NoDup_nil
    | repeat (apply Forall_cons; [cbn; split; [tauto | lia] |]);
      apply Forall_nil ].
Qed.

(** ** Construction followed by a call *)

(** Constructing a provider and calling it at once: when no key can be
    resolved the [ValueError] of construction comes out and nothing is
    sent; otherwise exactly one request is sent, to the configured base
    URL (or the hard-coded one), bearing the resolved key. *)
Theorem construct_then_complete config request kwargs w log :
  let run :=
    (self <- DeepSeek.__init__ config ;; DeepSeek.complete self request kwargs) in
  let explicit := dict_get config "api_key" VNone in
  let from_env :=
    match environ w "DEEPSEEK_API_KEY" with
    | Some s => VStr s
    | None => VNone
    end in
  let key := if truthy explicit then explicit else from_env in
  (truthy key = false -> exists msg, run w log = (Raise (ValueError msg), log)) /\
  (truthy key = true ->
   exists sent,
     snd (run w log) = (log ++ [sent])%list /\
     Http.url sent =
       [Fmt (dict_get config "base_url" (VStr "https://api.deepseek.com/v1"));
        Lit "/chat/completions"] /\
     Http.headers sent =
       [("Authorization", [Lit "Bearer "; Fmt key]);
        ("Content-Type", [Lit "application/json"])]).
Proof.
  cbv zeta. unfold bind. rewrite DeepSeek_init_run. cbv zeta.
  destruct (truthy (dict_get config "api_key" VNone)) eqn:He.
  - cbv beta iota. rewrite He. split; [discriminate |]. intros _.
    rewrite DeepSeek_complete_run. eexists. split; [reflexivity |].
    split; reflexivity.
  - destruct (truthy match environ w "DEEPSEEK_API_KEY" with
                     | Some s => VStr s
                     | None => VNone
                     end) eqn:Hv; cbv beta iota.
    + split; [discriminate |]. intros _.
      rewrite DeepSeek_complete_run. eexists. split; [reflexivity |].
      split; reflexivity.
    + split; [| discriminate]. intros _. eexists. reflexivity.
Qed.

Lemma construct_then_complete_witness :
  (exists msg,
     (self <- DeepSeek.__init__ [("api_key", VStr "")] ;;
      DeepSeek.complete self simple_request []) (answering 200 plain_reply) [] =
     (Raise (ValueError msg), [])) /\
  (exists sent,
     snd ((self <- DeepSeek.__init__ [("base_url", VStr "http://localhost/v1")] ;;
           DeepSeek.complete self simple_request [])
            (answering_with_env "DEEPSEEK_API_KEY" "sk-9" 200 plain_reply) []) =
       [sent] /\
     Http.url sent = [Fmt (VStr "http://localhost/v1"); Lit "/chat/completions"] /\
     Http.headers sent =
       [("Authorization", [Lit "Bearer "; Fmt (VStr "sk-9")]);
        ("Content-Type", [Lit "application/json"])]).
Proof.
  split.
  - exact (proj1 (construct_then_complete [("api_key", VStr "")] simple_request []
                    (answering 200 plain_reply) []) eq_refl).
  - exact (proj2 (construct_then_complete [("base_url", VStr "http://localhost/v1")]
                    simple_request []
                    (answering_with_env "DEEPSEEK_API_KEY" "sk-9" 200 plain_reply) [])
             eq_refl).
Defined.

(** ** The siblings' own errors *)

Lemma Qwen_chat_response_raises self request kwargs py response e :
  Qwen.chat_response self request kwargs py response = Raise e ->
  builtin_error e \/ e = Exception [Lit "Qwen API returned no choices"].
Proof.
  unfold Qwen.chat_response. intros H. raised H.
  - left. eapply to_result_raises. exact H.
  - left. eapply get_raises. exact H.
  - destruct (negb (truthy a0)); [right; congruence |].
    left. raised H;
      try (eapply get_raises; eassumption);
      try (eapply getitem0_raises; eassumption);
      try (eapply iter_raises; eassumption);
      try discriminate.
    apply for_each_raises in H as (x & _ & Hx).
    exact (DeepSeek_tool_call_obj_raises _ _ _ Hx).
Qed.

Lemma Doubao_chat_response_raises self request kwargs py response e :
  Doubao.chat_response self request kwargs py response = Raise e ->
  builtin_error e \/ e = Exception [Lit "Doubao API returned no choices"].
Proof.
  unfold Doubao.chat_response. intros H. raised H.
  - left. eapply to_result_raises. exact H.
  - left. eapply get_raises. exact H.
  - destruct (negb (truthy a0)); [right; congruence |].
    left. raised H;
      try (eapply get_raises; eassumption);
      try (eapply getitem0_raises; eassumption);
      try (eapply iter_raises; eassumption);
      try discriminate.
    apply for_each_raises in H as (x & _ & Hx).
    exact (DeepSeek_tool_call_obj_raises _ _ _ Hx).
Qed.

(** The Qwen and Doubao providers word their own errors.  When the
    network has answered, an [Exception] out of [complete] is either the
    provider's API error with the status and the body, for a status other
    than 200, or the provider's error that no choices were returned, for
    a 200 reply; no other [Exception] and no other vendor's name comes
    out. *)
Theorem sibling_errors_name_their_vendor :
  (forall self request kwargs w log response msg,
     network w (Qwen.post_request self request kwargs) = Ok response ->
     fst (Qwen.complete self request kwargs w log) = Raise (Exception msg) ->
     (Http.status_code response <> 200 /\
      msg = [Lit "Qwen API error: "; Fmt (VInt (Http.status_code response));
             Lit " - "; Fmt (VStr (Http.text response))]) \/
     (Http.status_code response = 200 /\
      msg = [Lit "Qwen API returned no choices"])) /\
  (forall self request kwargs w log response msg,
     network w (Doubao.post_request self request kwargs) = Ok response ->
     fst (Doubao.complete self request kwargs w log) = Raise (Exception msg) ->
     (Http.status_code response <> 200 /\
      msg = [Lit "Doubao API error: "; Fmt (VInt (Http.status_code response));
             Lit " - "; Fmt (VStr (Http.text response))]) \/
     (Http.status_code response = 200 /\
      msg = [Lit "Doubao API returned no choices"])).
Proof.
  split; intros self request kwargs w log response msg Hnet.
  - rewrite Qwen_complete_run, Hnet. cbn [fst].
    destruct (Z.eqb_spec (Http.status_code response) 200) as [Heq | Hne];
      cbn [negb]; intros H.
    + right. split; [exact Heq |].
      apply Qwen_chat_response_raises in H as [[] | H]. congruence.
    + left. split; [exact Hne | congruence].
  - rewrite Doubao_complete_run, Hnet. cbn [fst].
    destruct (Z.eqb_spec (Http.status_code response) 200) as [Heq | Hne];
      cbn [negb]; intros H.
    + right. split; [exact Heq |].
      apply Doubao_chat_response_raises in H as [[] | H]. congruence.
    + left. split; [exact Hne | congruence].
Qed.

Lemma sibling_errors_name_their_vendor_witness :
  fst (Qwen.complete b_provider simple_request []
         (answering 200 no_choices_reply) []) =
    Raise (Exception [Lit "Qwen API returned no choices"]) /\
  fst (Doubao.complete c_provider simple_request []
         (answering 429 "slow down") []) =
    Raise (Exception [Lit "Doubao API error: "; Fmt (VInt 429); Lit " - ";
                      Fmt (VStr "slow down")]).
Proof.
  split.
  - destruct (proj1 sibling_errors_name_their_vendor b_provider simple_request []
                (answering 200 no_choices_reply) []
                (reply 200 no_choices_reply)
                [Lit "Qwen API returned no choices"] eq_refl eq_refl)
      as [(Hne & _) | (_ & Hmsg)].
    + exfalso. apply Hne. reflexivity.
    + reflexivity.
  - destruct (proj2 sibling_errors_name_their_vendor c_provider simple_request []
                (answering 429 "slow down") []
                (reply 429 "slow down")
                _ eq_refl eq_refl)
      as [(_ & Hmsg) | (Heq & _)].
    + reflexivity.
    + discriminate Heq.
Defined.

(** ** Which replies decode *)

Lemma DeepSeek_tool_call_obj_wire_entry py entry :
  wire_entry py entry = true <-> exists tc, DeepSeek.tool_call_obj py entry = Ok tc.
Proof.
  split.
  - unfold wire_entry. destruct entry as [| | | | | | d]; try discriminate.
    destruct (dict_get d "function" (VDict [])) as [| | | | | | f] eqn:Hf;
      try discriminate.
    destruct (dict_get f "arguments" (VStr "{}")) as [| | | | s | |] eqn:Ha;
      try discriminate.
    rewrite (DeepSeek_tool_call_obj_string _ _ _ _ Hf Ha). cbv zeta.
    destruct (Json.decode py s) as [v | []]; try discriminate; eauto.
  - intros (tc & H).
    destruct (DeepSeek_tool_call_obj_ok _ _ _ H)
      as (d & f & s & -> & Hf & Ha & _ & _ & [(v & Hs & _) | (Hs & _)]);
      unfold wire_entry; rewrite Hf, Ha, Hs; reflexivity.
Qed.

(** For a 200 reply whose first choice is an object with an object as
    message and a list under [tool_calls], [complete] returns a response
    exactly when every entry of that list is an object whose [function]
    is absent or an object and whose [arguments] are absent or a string
    on which [json.loads] returns or raises a [JSONDecodeError]. *)
Theorem reply_decodes_iff_entries_are_wire_shaped
    self request kwargs w log response d c rest m entries :
  network w (DeepSeek.post_request self request kwargs) = Ok response ->
  Http.status_code response = 200 ->
  response_json response = Ok (VDict d) ->
  dict_get d "choices" (VList []) = VList (VDict c :: rest) ->
  dict_get c "message" (VDict []) = VDict m ->
  dict_get m "tool_calls" (VList []) = VList entries ->
  (exists r, fst (DeepSeek.complete self request kwargs w log) = Ok r) <->
  forallb (wire_entry (python w)) entries = true.
Proof.
  intros Hnet Hstatus Hd Hc Hm Ht.
  rewrite DeepSeek_complete_run, Hnet, Hstatus. cbn [fst Z.eqb Pos.eqb negb].
  rewrite (DeepSeek_chat_response_shape _ _ _ _ _ _ _ _ _ _ Hd Hc Hm Ht).
  rewrite forallb_forall. split.
  - intros (r & H) entry Hin.
    destruct (for_each _ entries) as [tl |] eqn:Hloop; [| discriminate].
    apply for_each_Forall2 in Hloop.
    apply DeepSeek_tool_call_obj_wire_entry.
    clear H Ht. induction Hloop as [| x y l l' Hxy _ IH]; [destruct Hin |].
    destruct Hin as [<- | Hin]; [eauto | exact (IH Hin)].
  - intros Hall.
    assert (Hloop : exists tl,
               for_each (DeepSeek.tool_call_obj (python w)) entries = Ok tl).
    { clear Ht. induction entries as [| x l IH]; [exists []; reflexivity |].
      destruct (proj1 (DeepSeek_tool_call_obj_wire_entry (python w) x)
                  (Hall x (or_introl eq_refl))) as (y & Hy).
      destruct (IH (fun e He => Hall e (or_intror He))) as (ys & Hys).
      exists (y :: ys). cbn. rewrite Hy. cbn. rewrite Hys. reflexivity. }
    destruct Hloop as (tl & ->). eauto.
Qed.

Lemma reply_decodes_iff_entries_are_wire_shaped_witness :
  (exists r,
     fst (DeepSeek.complete a_provider simple_request []
            (answering 200 bare_tool_call_reply) []) = Ok r) /\
  ~ (exists r,
       fst (DeepSeek.complete a_provider simple_request []
              (answering 200 (reply_with_arguments deep_arguments)) []) = Ok r).
Proof.
  split.
  - apply (proj2 (reply_decodes_iff_entries_are_wire_shaped
                    a_provider simple_request []
                    (answering 200 bare_tool_call_reply) []
                    (reply 200 bare_tool_call_reply)
                    [("choices",
                      VList [VDict [("message",
                                     VDict [("tool_calls", VList [VDict []])])]])]
                    [("message", VDict [("tool_calls", VList [VDict []])])] []
                    [("tool_calls", VList [VDict []])] [VDict []]
                    eq_refl eq_refl eq_refl eq_refl eq_refl eq_refl)).
    reflexivity.
  - intros (r & H). vm_compute in H. discriminate H.
Defined.
